(** * Assessment engine of [app.py]: nutrition formulas, meal plan, posture checks

    A shallow embedding of the calculation functions of
    [src/fitness-ai-form/app.py] together with the properties the
    specification states about them.

    Conventions of the model.
    - A Python [str] is the list of its Unicode code points ([pystr]);
      literals are written as UTF-8 text and decoded by [u].
    - A Python [float] of the nutrition functions is the exact rational it
      denotes ([Q]); binary64 rounding error, infinities and NaN are outside
      the model.  Results are compared with [==].
    - A Python [float] of the posture geometry is a real number ([R]), with
      [math.atan2], [math.degrees] and [math.hypot] as their mathematical
      counterparts.
    - Ties of [round] and comparisons at a threshold are therefore those of
      exact arithmetic, and overflow and underflow do not occur; statements
      are kept to what also holds of the binary64 results.
    - A call that can raise returns [result]: [Raise e] or [Ok v]. *)

From Stdlib Require Import ZArith QArith Qround Qabs Lia Psatz.
From Stdlib Require Import Reals.
From Stdlib Require Import String Ascii DecimalString.
From stdpp Require Import base option list gmap.

Local Open Scope Z_scope.

(** ** Python strings *)

Module PyStr.

Definition pystr : Type := list N.

Definition bytes_of (s : string) : list N :=
  List.map (fun b => N_of_ascii (ascii_of_byte b)) (list_byte_of_string s).

(** UTF-8 decoding of a literal (well-formed input only). *)
Fixpoint utf8_decode (bs : list N) : pystr :=
  match bs with
  | [] => []
  | b0 :: r0 =>
      if (b0 <? 128)%N then b0 :: utf8_decode r0
      else if (b0 <? 224)%N then
        match r0 with
        | b1 :: r1 => ((b0 mod 32) * 64 + b1 mod 64)%N :: utf8_decode r1
        | _ => []
        end
      else if (b0 <? 240)%N then
        match r0 with
        | b1 :: b2 :: r2 =>
            ((b0 mod 16) * 4096 + (b1 mod 64) * 64 + b2 mod 64)%N
              :: utf8_decode r2
        | _ => []
        end
      else
        match r0 with
        | b1 :: b2 :: b3 :: r3 =>
            ((b0 mod 8) * 262144 + (b1 mod 64) * 4096
             + (b2 mod 64) * 64 + b3 mod 64)%N :: utf8_decode r3
        | _ => []
        end
  end.

Definition u (s : string) : pystr := utf8_decode (bytes_of s).
Arguments u : simpl never.

(** [str.isspace] on one code point: the characters [str.strip()] removes. *)
Definition isspace (c : N) : bool :=
  ((9 <=? c) && (c <=? 13) || (28 <=? c) && (c <=? 32)
   || (c =? 133) || (c =? 160) || (c =? 5760)
   || (8192 <=? c) && (c <=? 8202)
   || (c =? 8232) || (c =? 8233) || (c =? 8239) || (c =? 8287)
   || (c =? 12288))%N.

Fixpoint lstrip (s : pystr) : pystr :=
  match s with
  | c :: r => if isspace c then lstrip r else s
  | [] => []
  end.

(** [s.strip()] *)
Definition strip (s : pystr) : pystr := rev (lstrip (rev (lstrip s))).

(** [s.split(sep)] for a one-character separator: never the empty list. *)
Fixpoint split (sep : N) (s : pystr) : list pystr :=
  match s with
  | [] => [[]]
  | c :: r =>
      if (c =? sep)%N then [] :: split sep r
      else match split sep r with
           | h :: t => (c :: h) :: t
           | [] => [[c]]
           end
  end.

(** [sep.join(l)] *)
Fixpoint join (sep : pystr) (l : list pystr) : pystr :=
  match l with
  | [] => []
  | [x] => x
  | x :: r => x ++ sep ++ join sep r
  end.

(** [s.startswith(prefix)] *)
Fixpoint startswith (s prefix : pystr) : bool :=
  match prefix, s with
  | [], _ => true
  | p :: prefix', c :: s' => (p =? c)%N && startswith s' prefix'
  | _ :: _, [] => false
  end.

(** [needle in hay] *)
Fixpoint contains (hay needle : pystr) : bool :=
  startswith hay needle
  || match hay with
     | [] => false
     | _ :: r => contains r needle
     end.

(** [str(n)] for an [int]. *)
Definition str_of_int (n : Z) : pystr :=
  u (DecimalString.NilZero.string_of_int (Z.to_int n)).

(** [s or default]: a string is falsy when empty. *)
Definition str_or (s default : pystr) : pystr :=
  match s with [] => default | _ => s end.

(** The ASCII fragment of [str.lower()]: A-Z to a-z, every other code
    point unchanged.  Python's [lower] agrees with it on every string that
    holds no cased letter outside ASCII. *)
Definition lower_ascii (s : pystr) : pystr :=
  List.map (fun c => if ((65 <=? c) && (c <=? 90))%N then (c + 32)%N else c) s.

End PyStr.
Import PyStr.

(** ** Exceptions and numeric built-ins *)

Inductive exn : Type := ZeroDivisionError.

Inductive result (A : Type) : Type :=
| Raise (e : exn)
| Ok (v : A).
Arguments Raise {A} e.
Arguments Ok {A} v.

#[global] Instance result_ret : MRet result := fun A v => Ok v.
#[global] Instance result_bind : MBind result := fun A B k m =>
  match m with
  | Raise e => Raise e
  | Ok v => k v
  end.

Module Py.

(** [x / y] on floats. *)
Definition div (x y : Q) : result Q :=
  if Qeq_bool y 0 then Raise ZeroDivisionError else Ok (x / y)%Q.

(** [round(x)]: nearest integer, a tie goes to the even neighbour. *)
Definition round (x : Q) : Z :=
  let f := Qfloor x in
  match (x - inject_Z f ?= 1 # 2)%Q with
  | Lt => f
  | Gt => f + 1
  | Eq => if Z.even f then f else f + 1
  end.

(** [round(x, ndigits)] for [ndigits >= 0]. *)
Definition round_nd (x : Q) (ndigits : nat) : Q :=
  (inject_Z (round (x * inject_Z (10 ^ Z.of_nat ndigits)))
   / inject_Z (10 ^ Z.of_nat ndigits))%Q.

(** [max(a, b)]: [b] when [b > a], else [a]. *)
Definition max (a b : Q) : Q :=
  match (b ?= a)%Q with Gt => b | _ => a end.

End Py.

(** ** Nutrition calculator *)

Module Nutrition.
Local Open Scope Q_scope.

(** [calc_bmi] (app.py, lines 118-120) *)
Definition calc_bmi (weight_kg height_cm : Q) : result Q :=
  let h_m := height_cm / 100 in
  r ← Py.div weight_kg (h_m ^ 2);
  mret (Py.round_nd r 2).

(** [mifflin_st_jeor_bmr] (lines 123-128); [age] is an [int]. *)
Definition mifflin_st_jeor_bmr
    (gender : pystr) (weight_kg height_cm : Q) (age : Z) : Q :=
  if bool_decide (gender = u "男性") then
    10 * weight_kg + 6.25 * height_cm - inject_Z (5 * age) + 5
  else
    10 * weight_kg + 6.25 * height_cm - inject_Z (5 * age) - 161.

(** [activity_factor] (lines 131-139): the dict and [mapping.get(level, 1.2)]. *)
Definition mapping : gmap pystr Q :=
  {[ u "低い（デスクワーク中心/運動ほぼ無し）" := 1.2;
     u "やや低い（週1〜2軽い運動）" := 1.375;
     u "普通（週3〜4運動）" := 1.55;
     u "高い（週5以上ハード）" := 1.725;
     u "非常に高い（アスリート級）" := 1.9 ]}.

Definition activity_factor (level : pystr) : Q :=
  default 1.2 (mapping !! level).

(** [target_calories_from_goal] (lines 142-152) *)
Definition target_calories_from_goal (tdee : Q) (goal : pystr) : Z :=
  if bool_decide (goal = u "減量（-15〜20%）") then Py.round (tdee * 0.85)
  else if bool_decide (goal = u "緩やか減量（-10%）") then Py.round (tdee * 0.90)
  else if bool_decide (goal = u "現状維持") then Py.round tdee
  else if bool_decide (goal = u "増量（+10%）") then Py.round (tdee * 1.10)
  else Py.round tdee.

(** [macro_plan] (lines 155-165) *)
Definition macro_plan (weight_kg calories : Q) (goal : pystr) : Z * Z * Z :=
  let protein_g := 1.8 * weight_kg in
  let fat_kcal := calories * 0.25 in
  let fat_g := fat_kcal / 9.0 in
  let protein_kcal := protein_g * 4.0 in
  let carbs_kcal := Py.max 0.0 (calories - (protein_kcal + fat_kcal)) in
  let carbs_g := carbs_kcal / 4.0 in
  (Py.round protein_g, Py.round fat_g, Py.round carbs_g).

(** The assessment the form handler of [main] computes on submit
    (lines 417-448); [assess] is the body of its [try] block. *)
Record Assessment : Type := mkAssessment {
  bmi : Q;
  bmr : Q;
  tdee : Q;
  target_calories : Z;
  protein_g : Z;
  fat_g : Z;
  carbs_g : Z
}.

Definition assess (age : Z) (gender : pystr) (height_cm weight_kg : Q)
    (activity_level goal : pystr) : result Assessment :=
  bmi ← calc_bmi weight_kg height_cm;
  let bmr := mifflin_st_jeor_bmr gender weight_kg height_cm age in
  let tdee_val := bmr * activity_factor activity_level in
  let target_cal := target_calories_from_goal tdee_val goal in
  let '(p, f, c) := macro_plan weight_kg (inject_Z target_cal) goal in
  mret (mkAssessment bmi bmr tdee_val target_cal p f c).

End Nutrition.
Import Nutrition.

(** ** Meal plan generator *)

Module Meals.

Record MealPlan : Type := mkMealPlan {
  breakfast : list pystr;
  lunch : list pystr;
  dinner : list pystr;
  snack : list pystr;
  guide : pystr
}.

(** The result dict of [meal_suggestions] (lines 169-208) has the five
    keys of [MealPlan]; the inline literals of the function are named. *)
Definition nl : pystr := [10%N].
Definition comma : N := 44%N.

Definition placeholder : pystr := u "（該当食材を回避して選択）".
Definition cut_note : pystr := u "減量中：脂質控えめ・高たんぱくを意識".
Definition keep_note : pystr := u "増量/維持：炭水化物を運動前後に寄せる".

Definition breakfast_candidates : list pystr :=
  [ u "オートミール+無糖ヨーグルト+ベリー";
    u "全卵1+卵白2のスクランブル+玄米おにぎり";
    u "プロテインシェイク+バナナ" ].
Definition lunch_candidates : list pystr :=
  [ u "鶏むねグリル150g+雑穀米150g+サラダ";
    u "鮭の塩焼き+さつまいも200g+味噌汁";
    u "豆腐ステーキ+玄米150g+野菜炒め" ].
Definition dinner_candidates : list pystr :=
  [ u "白身魚のホイル焼き+ブロッコリー+じゃがいも150g";
    u "豚ヒレ100g+白菜スープ+玄米120g";
    u "鶏つくね鍋（春雨少量）" ].
Definition snack_candidates : list pystr :=
  [ u "プロテインバー/和風おにぎり/枝豆/ミックスナッツ少量" ].

(** [l or d]: a list is falsy when empty. *)
Definition list_or (l d : list pystr) : list pystr :=
  match l with [] => d | _ => l end.

Definition nonempty (s : pystr) : bool :=
  match s with [] => false | _ => true end.

Section WithLower.
(** [str.lower()], the Unicode case mapping of the Python runtime. *)
Variable lower : pystr -> pystr.

(** [[a.strip() for a in allergies.split(",") if a.strip()]] *)
Definition avoid_of (allergies : pystr) : list pystr :=
  List.map strip
    (List.filter (fun a => nonempty (strip a)) (split comma allergies)).

(** The inner function [ok]. *)
Definition ok (avoid : list pystr) (item : pystr) : bool :=
  forallb (fun a => negb (contains (lower item) (lower a))) avoid.

Definition meal_suggestions
    (cal p f c : Z) (prefs allergies goal : pystr) : MealPlan :=
  let avoid := avoid_of allergies in
  let lowfat := startswith goal (u "減量") in
  let breakfast := List.filter (ok avoid) breakfast_candidates in
  let lunch := List.filter (ok avoid) lunch_candidates in
  let dinner := List.filter (ok avoid) dinner_candidates in
  let snack := List.filter (ok avoid) snack_candidates in
  let guide :=
    strip
      (nl ++ u "- 1日の目標：" ++ str_of_int cal ++ u " kcal / P"
          ++ str_of_int p ++ u "g F" ++ str_of_int f ++ u "g C"
          ++ str_of_int c ++ u "g" ++ nl
          ++ u "- 配分例：朝 25% / 昼 35% / 夜 30% / 間食 10%" ++ nl
          ++ u "- 水分：目安 体重(kg)×30〜35 ml" ++ nl
          ++ u "- " ++ (if lowfat then cut_note else keep_note)
          ++ u " " ++ nl
          ++ u "- 好み：" ++ str_or prefs (u "（未入力）")
          ++ u " / アレルギー回避："
          ++ (match avoid with
              | [] => u "なし"
              | _ => join (u ", ") avoid
              end)
          ++ nl) in
  {| breakfast := list_or (take 2 breakfast) [placeholder];
     lunch := list_or (take 2 lunch) [placeholder];
     dinner := list_or (take 2 dinner) [placeholder];
     snack := take 1 snack;
     guide := guide |}.

End WithLower.

End Meals.
Import Meals.

(** ** Posture analyzer *)

Module Posture.
Local Open Scope R_scope.

(** The members of [mp_pose.PoseLandmark] the analysis reads. *)
Inductive PoseLandmark : Type :=
| LEFT_EAR | RIGHT_EAR
| LEFT_SHOULDER | RIGHT_SHOULDER
| LEFT_HIP | RIGHT_HIP
| LEFT_KNEE | RIGHT_KNEE
| LEFT_ANKLE | RIGHT_ANKLE.

Definition point : Type := R * R.

(** [res.pose_landmarks.landmark] read through [get_xy]. *)
Definition landmarks : Type := PoseLandmark -> point.

(** [math.atan2(y, x)] *)
Definition atan2 (y x : R) : R :=
  if Rlt_dec 0 x then atan (y / x)
  else if Rlt_dec x 0 then
    if Rle_dec 0 y then atan (y / x) + PI else atan (y / x) - PI
  else
    if Rlt_dec 0 y then PI / 2
    else if Rlt_dec y 0 then - (PI / 2)
    else 0.

(** [math.degrees(x)] *)
Definition degrees (x : R) : R := x * (180 / PI).

(** [math.hypot(x, y)] *)
Definition hypot (x y : R) : R := sqrt (x * x + y * y).

(** [x / y] on floats. *)
Definition div (x y : R) : result R :=
  if Req_dec_T y 0 then Raise ZeroDivisionError else Ok (x / y).

Definition line_angle_deg (p1 p2 : point) : R :=
  let dx := fst p2 - fst p1 in
  let dy := snd p2 - snd p1 in
  degrees (atan2 dy dx).

Definition dist (p1 p2 : point) : R :=
  hypot (fst p2 - fst p1) (snd p2 - snd p1).

(** A finding stands for the text the source appends: its kind is the
    fixed wording of the line, its argument the number formatted in it. *)
Inductive finding : Type :=
| Shoulder_tilt (deg : R)
| Hip_tilt (deg : R)
| Head_tilt (deg : R)
| Knee_in (ratio : R).

Inductive advice_item : Type :=
| Shoulder_advice | Hip_advice | Head_advice | Knee_advice.

(** The keyword tests ["肩" in f], ["骨盤" in f], ["頭部" in f] and
    ["ニーイン" in f]: each keyword occurs in the wording of one kind. *)
Definition is_shoulder (f : finding) : bool :=
  match f with Shoulder_tilt _ => true | _ => false end.
Definition is_hip (f : finding) : bool :=
  match f with Hip_tilt _ => true | _ => false end.
Definition is_head (f : finding) : bool :=
  match f with Head_tilt _ => true | _ => false end.
Definition is_knee (f : finding) : bool :=
  match f with Knee_in _ => true | _ => false end.

Record report : Type := mkReport {
  ok : bool;
  message : pystr;
  findings : list finding;
  advice : option (list advice_item)
}.

(** [analyze_posture] (lines 212-286), from the outcome of
    [pose.process]: [pose_landmarks] is [None] when no pose was detected.
    Exceptions raised by the image conversion and by the pose library
    (lines 224-229) are outside the model. *)
Definition analyze_posture
    (POSE_AVAILABLE : bool) (pose_landmarks : option landmarks)
    : result report :=
  let findings : list finding := [] in
  if negb POSE_AVAILABLE then
    mret (mkReport false
            (u "MediaPipeが利用できないため、姿勢解析をスキップしました。")
            findings None)
  else
    match pose_landmarks with
    | None =>
        mret (mkReport false
                (u "ランドマークを検出できませんでした。正面から全身〜上半身が写る明るい写真でお試しください。")
                findings None)
    | Some lm =>
        let ls := lm LEFT_SHOULDER in
        let rs := lm RIGHT_SHOULDER in
        let shoulder_deg := line_angle_deg rs ls in
        let lh := lm LEFT_HIP in
        let rh := lm RIGHT_HIP in
        let hip_deg := line_angle_deg rh lh in
        let le := lm LEFT_EAR in
        let re := lm RIGHT_EAR in
        let head_deg := line_angle_deg re le in
        let lk := lm LEFT_KNEE in
        let rk := lm RIGHT_KNEE in
        let la := lm LEFT_ANKLE in
        let ra := lm RIGHT_ANKLE in
        let knee_w := dist lk rk in
        let ankle_w := dist la ra in
        let findings :=
          if Rge_dec (Rabs shoulder_deg) 5
          then findings ++ [Shoulder_tilt shoulder_deg] else findings in
        let findings :=
          if Rge_dec (Rabs hip_deg) 5
          then findings ++ [Hip_tilt hip_deg] else findings in
        let findings :=
          if Rge_dec (Rabs head_deg) 5
          then findings ++ [Head_tilt head_deg] else findings in
        findings ←
          (if Rgt_dec ankle_w 0 then
             q ← div knee_w ankle_w;
             if Rlt_dec q (9 / 10) then
               ratio ← div knee_w ankle_w;
               mret (findings ++ [Knee_in ratio])
             else mret findings
           else mret findings);
        let advice : list advice_item := [] in
        let advice :=
          if existsb is_shoulder findings
          then advice ++ [Shoulder_advice] else advice in
        let advice :=
          if existsb is_hip findings
          then advice ++ [Hip_advice] else advice in
        let advice :=
          if existsb is_head findings
          then advice ++ [Head_advice] else advice in
        let advice :=
          if existsb is_knee findings
          then advice ++ [Knee_advice] else advice in
        mret (mkReport true (u "解析完了") findings (Some advice))
    end.

End Posture.

(** ** Notions used to state the posture properties *)

Module Stance.
Import Posture.
Local Open Scope R_scope.

Definition knee_w (lm : landmarks) : R := dist (lm LEFT_KNEE) (lm RIGHT_KNEE).
Definition ankle_w (lm : landmarks) : R :=
  dist (lm LEFT_ANKLE) (lm RIGHT_ANKLE).


(** The three symmetry checks, in the order the source appends them. *)
Definition symmetry_findings (lm : landmarks) : list finding :=
  let shoulder_deg := line_angle_deg (lm RIGHT_SHOULDER) (lm LEFT_SHOULDER) in
  let hip_deg := line_angle_deg (lm RIGHT_HIP) (lm LEFT_HIP) in
  let head_deg := line_angle_deg (lm RIGHT_EAR) (lm LEFT_EAR) in
  (if Rge_dec (Rabs shoulder_deg) 5 then [Shoulder_tilt shoulder_deg] else [])
  ++ (if Rge_dec (Rabs hip_deg) 5 then [Hip_tilt hip_deg] else [])
  ++ (if Rge_dec (Rabs head_deg) 5 then [Head_tilt head_deg] else []).

Definition knee_findings (lm : landmarks) : list finding :=
  if Rgt_dec (ankle_w lm) 0 then
    if Rlt_dec (knee_w lm / ankle_w lm) (9 / 10)
    then [Knee_in (knee_w lm / ankle_w lm)] else []
  else [].

(** Left/right pairs, and the pairs whose line is measured. *)
Definition upper_sides : list (PoseLandmark * PoseLandmark) :=
  [ (LEFT_SHOULDER, RIGHT_SHOULDER); (LEFT_HIP, RIGHT_HIP);
    (LEFT_EAR, RIGHT_EAR) ].
Definition sides : list (PoseLandmark * PoseLandmark) :=
  upper_sides ++ [ (LEFT_KNEE, RIGHT_KNEE); (LEFT_ANKLE, RIGHT_ANKLE) ].

(** Every pair is mirrored across the vertical line x = m: the two points
    are at equal heights and at equal distances on either side of it. *)
Definition mirrored (lm : landmarks) (m : R) : Prop :=
  Forall (fun '(l, r) =>
            fst (lm l) - m = m - fst (lm r) /\ snd (lm l) = snd (lm r))
         sides.

(** The subject faces the camera: the left shoulder, hip and ear are not
    to the left of the right ones in the image. *)
Definition facing (lm : landmarks) : Prop :=
  Forall (fun '(l, r) => fst (lm r) <= fst (lm l)) upper_sides.

(** A mirrored stance facing the camera whose knees are 0.1 apart over
    ankles 0.4 apart. *)
Definition knock_kneed : landmarks := fun l =>
  match l with
  | LEFT_EAR => (11 / 20, 1 / 10)
  | RIGHT_EAR => (9 / 20, 1 / 10)
  | LEFT_SHOULDER => (7 / 10, 1 / 4)
  | RIGHT_SHOULDER => (3 / 10, 1 / 4)
  | LEFT_HIP => (3 / 5, 1 / 2)
  | RIGHT_HIP => (2 / 5, 1 / 2)
  | LEFT_KNEE => (11 / 20, 3 / 4)
  | RIGHT_KNEE => (9 / 20, 3 / 4)
  | LEFT_ANKLE => (7 / 10, 19 / 20)
  | RIGHT_ANKLE => (3 / 10, 19 / 20)
  end.

(** The same stance with the knees above the ankles. *)
Definition upright : landmarks := fun l =>
  match l with
  | LEFT_KNEE => (7 / 10, 3 / 4)
  | RIGHT_KNEE => (3 / 10, 3 / 4)
  | _ => knock_kneed l
  end.

End Stance.

(** ** Further notions: the callers in [main] and the shape of a report *)

Module Derived.
Import Posture.
Local Open Scope R_scope.

(** The results tab of [main] (lines 493-501) builds the meal plan from the
    stored assessment; [int(...)] of an [int] is the identity. *)
Definition plan_of_assessment (lower : pystr -> pystr) (a : Assessment)
    (dietary_prefs allergies goal : pystr) : MealPlan :=
  meal_suggestions lower (target_calories a) (protein_g a) (fat_g a)
    (carbs_g a) dietary_prefs allergies goal.

(** The advice line that belongs to a finding (lines 277-284). *)
Definition advice_for (f : finding) : advice_item :=
  match f with
  | Shoulder_tilt _ => Shoulder_advice
  | Hip_tilt _ => Hip_advice
  | Head_tilt _ => Head_advice
  | Knee_in _ => Knee_advice
  end.

(** The meal and posture sections of [build_report_docx] (lines 311-331)
    as the blocks added to the document, in order.  A finding or advice
    line stands for the paragraph ["・" + text] of that finding or advice.
    Every posture dict of the program has a ["message"] entry, so the
    default of [posture.get("message", ...)] is never used. *)
Inductive block : Type :=
| Heading (level : nat) (text : pystr)
| Paragraph (text : pystr)
| Finding_line (f : finding)
| Advice_line (a : advice_item).

Definition report_meals (meals : MealPlan) : list block :=
  [ Heading 2 (u "1日の食事例");
    Paragraph (guide meals);
    Paragraph (u "朝：" ++ join (u ", ") (breakfast meals));
    Paragraph (u "昼：" ++ join (u ", ") (lunch meals));
    Paragraph (u "夜：" ++ join (u ", ") (dinner meals));
    Paragraph (u "間食：" ++ join (u ", ") (snack meals)) ].

Definition report_posture (posture : report) : list block :=
  [ Heading 2 (u "姿勢チェック") ]
  ++ (if Posture.ok posture then
        (match findings posture with
         | _ :: _ =>
             [ Paragraph (u "注意ポイント：") ]
             ++ List.map Finding_line (findings posture)
         | [] => [ Paragraph (u "大きな偏りは検出されませんでした。") ]
         end)
        ++ (match advice posture with
            | Some ((_ :: _) as adv) =>
                [ Paragraph (u "改善アドバイス：") ]
                ++ List.map Advice_line adv
            | _ => []
            end)
      else [ Paragraph (message posture) ]).

End Derived.

(** * Properties *)

(** Names for the option strings of the form. *)
Abbreviation male := (u "男性") (only parsing).
Abbreviation female := (u "女性") (only parsing).
Abbreviation level_low :=
  (u "低い（デスクワーク中心/運動ほぼ無し）") (only parsing).
Abbreviation level_light := (u "やや低い（週1〜2軽い運動）") (only parsing).
Abbreviation level_moderate := (u "普通（週3〜4運動）") (only parsing).
Abbreviation level_high := (u "高い（週5以上ハード）") (only parsing).
Abbreviation level_athlete := (u "非常に高い（アスリート級）") (only parsing).
Abbreviation goal_cut := (u "減量（-15〜20%）") (only parsing).
Abbreviation goal_cut_mild := (u "緩やか減量（-10%）") (only parsing).
Abbreviation goal_keep := (u "現状維持") (only parsing).
Abbreviation goal_bulk := (u "増量（+10%）") (only parsing).

(** Two string literals are different. *)
Ltac str_neq :=
  let H := fresh in intro H; vm_compute in H; discriminate H.

(** Division by a numeric literal, written as a product for [lra]. *)
Ltac qdiv_lit :=
  unfold Qdiv in *;
  repeat match goal with
    | |- context [Qinv (Qmake ?n ?d)] =>
        let v := eval compute in (Qinv (Qmake n d)) in
        change (Qinv (Qmake n d)) with v
    | H : context [Qinv (Qmake ?n ?d)] |- _ =>
        let v := eval compute in (Qinv (Qmake n d)) in
        change (Qinv (Qmake n d)) with v in H
    end.

(** ** Rounding *)

Section Rounding.
Local Open Scope Q_scope.

Lemma round_cases (x : Q) :
  Py.round x = Qfloor x \/ Py.round x = (Qfloor x + 1)%Z.
Proof.
  unfold Py.round.
  destruct (x - inject_Z (Qfloor x) ?= 1 # 2); auto.
  destruct (Z.even (Qfloor x)); auto.
Qed.

Lemma round_error (x : Q) : Qabs (inject_Z (Py.round x) - x) <= 1 # 2.
Proof.
  pose proof (Qfloor_le x) as Hlo.
  pose proof (Qlt_floor x) as Hhi.
  rewrite inject_Z_plus in Hhi. change (inject_Z 1) with 1 in Hhi.
  apply Qabs_Qle_condition.
  unfold Py.round.
  destruct (x - inject_Z (Qfloor x) ?= 1 # 2) eqn:E.
  - apply Qeq_alt in E.
    destruct (Z.even (Qfloor x)); rewrite ?inject_Z_plus;
      change (inject_Z 1) with 1; split; lra.
  - apply Qlt_alt in E. split; lra.
  - apply Qgt_alt in E. rewrite inject_Z_plus.
    change (inject_Z 1) with 1. split; lra.
Qed.

Lemma round_comp (x y : Q) : x == y -> Py.round x = Py.round y.
Proof.
  intros E. unfold Py.round.
  rewrite (Qfloor_comp _ _ E).
  assert (x - inject_Z (Qfloor y) == y - inject_Z (Qfloor y)) as E'
    by (rewrite E; reflexivity).
  rewrite (Qcompare_comp _ _ E' (1 # 2) (1 # 2) (Qeq_refl _)).
  reflexivity.
Qed.

Lemma round_nonneg (x : Q) : 0 <= x -> (0 <= Py.round x)%Z.
Proof.
  intros Hx.
  assert (0 <= Qfloor x)%Z as Hf.
  { change 0%Z with (Qfloor 0). apply Qfloor_resp_le, Hx. }
  destruct (round_cases x) as [-> | ->]; lia.
Qed.

Lemma max_zero_nonneg (x : Q) : 0 <= Py.max 0.0 x.
Proof.
  unfold Py.max. destruct (x ?= 0.0) eqn:E; try lra.
  apply Qgt_alt in E. lra.
Qed.

Lemma max_zero_of_nonneg (x : Q) : 0 <= x -> Py.max 0.0 x == x.
Proof.
  intros Hx. unfold Py.max. destruct (x ?= 0.0) eqn:E.
  - apply Qeq_alt in E. lra.
  - apply Qlt_alt in E. lra.
  - reflexivity.
Qed.

Lemma max_zero_of_nonpos (x : Q) : x <= 0 -> Py.max 0.0 x == 0.
Proof.
  intros Hx. unfold Py.max. destruct (x ?= 0.0) eqn:E; try reflexivity.
  apply Qgt_alt in E. lra.
Qed.

End Rounding.

(** ** Nutrition calculator *)

Section NutritionFacts.
Local Open Scope Q_scope.


(** C1 (as stated, refuted): at (male, 70 kg, 175 cm, 30) and
    (female, 60 kg, 160 cm, 30) the results of [mifflin_st_jeor_bmr] are
    not within 0.5 of 1724.0 and 1264.0. *)
Lemma C1_bmr_not_1724_1264 :
  ~ (Qabs (mifflin_st_jeor_bmr male 70 175 30 - 1724) <= 0.5
     /\ Qabs (mifflin_st_jeor_bmr female 60 160 30 - 1264) <= 0.5).
Proof.
  intros [H _]. revert H. apply Qlt_not_le. vm_compute. reflexivity.
Qed.

(** C1 (amended): for male gender, 70 kg, 175 cm, age 30
    [mifflin_st_jeor_bmr] returns 1648.75, and for female gender, 60 kg,
    160 cm, age 30 it returns 1289.0; both are the values of
    10W + 6.25H - 5A + 5 and 10W + 6.25H - 5A - 161. *)
Theorem C1_bmr_values :
  mifflin_st_jeor_bmr male 70 175 30 == 1648.75
  /\ mifflin_st_jeor_bmr female 60 160 30 == 1289.
Proof. split; vm_compute; reflexivity. Qed.

(** C10: every gender string other than ["男性"], the empty string
    included, gets the female formula 10W + 6.25H - 5A - 161: the result is
    the one computed for ["女性"], and it is not the male formula's. *)
Theorem C10_bmr_other_gender_is_female
    (gender : pystr) (weight_kg height_cm : Q) (age : Z) :
  gender <> male ->
  mifflin_st_jeor_bmr gender weight_kg height_cm age
    == 10 * weight_kg + 6.25 * height_cm - 5 * inject_Z age - 161
  /\ mifflin_st_jeor_bmr gender weight_kg height_cm age
      = mifflin_st_jeor_bmr female weight_kg height_cm age
  /\ ~ mifflin_st_jeor_bmr gender weight_kg height_cm age
        == 10 * weight_kg + 6.25 * height_cm - 5 * inject_Z age + 5.
Proof.
  intros Hg. unfold mifflin_st_jeor_bmr.
  rewrite (bool_decide_eq_false_2 (gender = u "男性")) by exact Hg.
  rewrite (bool_decide_eq_false_2 (female = u "男性")) by str_neq.
  rewrite inject_Z_mult. change (inject_Z 5) with 5.
  repeat split; try reflexivity. intros H. lra.
Qed.

Lemma C10_bmr_other_gender_witness :
  ([] : pystr) <> male
  /\ mifflin_st_jeor_bmr [] 60 160 30
      == 10 * 60 + 6.25 * 160 - 5 * inject_Z 30 - 161.
Proof.
  split; [ str_neq | ].
  apply (C10_bmr_other_gender_is_female [] 60 160 30). str_neq.
Defined.


Lemma activity_factor_unknown (level : pystr) :
  level <> level_low -> level <> level_light -> level <> level_moderate ->
  level <> level_high -> level <> level_athlete ->
  mapping !! level = None.
Proof.
  intros H1 H2 H3 H4 H5. unfold mapping.
  rewrite lookup_insert_ne by exact (not_eq_sym H1).
  rewrite lookup_insert_ne by exact (not_eq_sym H2).
  rewrite lookup_insert_ne by exact (not_eq_sym H3).
  rewrite lookup_insert_ne by exact (not_eq_sym H4).
  apply lookup_singleton_ne. exact (not_eq_sym H5).
Qed.

(** C9: the five known activity levels map to 1.2, 1.375, 1.55, 1.725
    and 1.9, and every other string gets 1.2; no input fails. *)
Theorem C9_activity_factor_table :
  activity_factor level_low = 1.2
  /\ activity_factor level_light = 1.375
  /\ activity_factor level_moderate = 1.55
  /\ activity_factor level_high = 1.725
  /\ activity_factor level_athlete = 1.9
  /\ forall level : pystr,
       level <> level_low -> level <> level_light ->
       level <> level_moderate -> level <> level_high ->
       level <> level_athlete ->
       activity_factor level = 1.2.
Proof.
  do 5 (split; [ vm_compute; reflexivity | ]).
  intros level H1 H2 H3 H4 H5. unfold activity_factor.
  rewrite activity_factor_unknown by assumption. reflexivity.
Qed.

Lemma C9_activity_factor_witness :
  activity_factor (u "unknown") = 1.2 /\ activity_factor [] = 1.2.
Proof.
  destruct C9_activity_factor_table as (_ & _ & _ & _ & _ & Hdefault).
  split; apply Hdefault; str_neq.
Defined.

(** *** Body-mass index *)

Lemma height_sq_nonzero (height_cm : Q) :
  ~ height_cm == 0 -> Qeq_bool ((height_cm / 100) ^ 2) 0 = false.
Proof.
  intros Hh. apply not_true_is_false. intros E.
  apply Qeq_bool_eq in E. simpl in E.
  assert (height_cm / 100 == 0) as E'.
  { destruct (Qmult_integral _ _ E); assumption. }
  apply Hh. qdiv_lit. lra.
Qed.

Lemma calc_bmi_zero_height (weight_kg height_cm : Q) :
  height_cm == 0 -> calc_bmi weight_kg height_cm = Raise ZeroDivisionError.
Proof.
  intros Hh. unfold calc_bmi, Py.div.
  assert (Qeq_bool ((height_cm / 100) ^ 2) 0 = true) as ->.
  { apply Qeq_eq_bool. rewrite Hh. reflexivity. }
  reflexivity.
Qed.

(** C4 (as stated, refuted): weight -65 kg with height 170 cm is a
    non-positive input, and [calc_bmi] returns -22.49 instead of failing. *)
Lemma C4_bmi_negative_weight_returns :
  (-65 <= 0 \/ 170 <= 0) /\ calc_bmi (-65) 170 = Ok (-22.49).
Proof. split; [ left; lra | vm_compute; reflexivity ]. Qed.

(** C4 (amended): [calc_bmi] validates nothing and raises no
    ValidationError.  For every height in the range of the form, 120 to
    220 cm, and every weight from -200 to 200 kg, zero and negative weights
    included, it returns weight / (height/100)^2 rounded to 2 decimals: a
    multiple of 0.01 within 0.005 of the quotient, with an allowance of
    10^-9 for the binary64 arithmetic of the source. *)
Theorem C4_bmi_rounded_quotient (weight_kg height_cm : Q) :
  120 <= height_cm <= 220 ->
  -200 <= weight_kg <= 200 ->
  exists b : Q,
    calc_bmi weight_kg height_cm = Ok b
    /\ (exists k : Z, b == inject_Z k / 100)
    /\ Qabs (b - weight_kg / (height_cm / 100) ^ 2)
       <= 0.005 + (1 # 1000000000).
Proof.
  intros Hh Hw.
  assert (~ height_cm == 0) as Hnz by (intros E; lra).
  unfold calc_bmi, Py.div.
  rewrite (height_sq_nonzero _ Hnz). cbn [mbind result_bind mret result_ret].
  eexists. split; [ reflexivity | ].
  set (q := weight_kg / (height_cm / 100) ^ 2).
  unfold Py.round_nd. change (inject_Z (10 ^ Z.of_nat 2)) with 100.
  split; [ eexists; reflexivity | ].
  pose proof (round_error (q * 100)) as Hr.
  apply Qabs_Qle_condition in Hr. apply Qabs_Qle_condition.
  set (r := inject_Z (Py.round (q * 100))) in *.
  qdiv_lit. split; lra.
Qed.

Lemma C4_bmi_rounded_quotient_witness :
  (120 <= 170 <= 220) /\ (-200 <= -65 <= 200)
  /\ exists b : Q, calc_bmi (-65) 170 = Ok b.
Proof.
  assert (120 <= 170 <= 220) as Hh by (split; discriminate).
  assert (-200 <= -65 <= 200) as Hw by (split; discriminate).
  split; [ exact Hh | ]. split; [ exact Hw | ].
  destruct (C4_bmi_rounded_quotient (-65) 170 Hh Hw) as (b & Hb & _).
  exists b. exact Hb.
Defined.

(** *** Macro split *)

(** C6: for every weight, calorie target and goal, [macro_plan] returns
    protein round(1.8 * weight), fat round(25% of calories / 9), and a
    carbohydrate amount that is never negative. *)
Theorem C6_macro_plan_values (weight_kg calories : Q) (goal : pystr) :
  let '(p, f, c) := macro_plan weight_kg calories goal in
  p = Py.round (1.8 * weight_kg)
  /\ f = Py.round (calories * 0.25 / 9)
  /\ (0 <= c)%Z.
Proof.
  unfold macro_plan. split; [ reflexivity | ].
  split; [ apply round_comp; qdiv_lit; ring | ].
  apply round_nonneg.
  pose proof (max_zero_nonneg
                (calories - (1.8 * weight_kg * 4.0 + calories * 0.25))) as H.
  set (m := Py.max _ _) in *. qdiv_lit. lra.
Qed.

(** When protein and fat alone exceed the target, carbohydrate is 0. *)
Lemma macro_plan_clamped (weight_kg calories : Q) (goal : pystr) :
  calories <= 1.8 * weight_kg * 4.0 + calories * 0.25 ->
  snd (macro_plan weight_kg calories goal) = 0%Z.
Proof.
  intros H. unfold macro_plan. cbn [snd].
  pose proof (max_zero_of_nonpos
                (calories - (1.8 * weight_kg * 4.0 + calories * 0.25))) as Hm.
  pose proof (round_error
                (Py.max 0.0 (calories
                             - (1.8 * weight_kg * 4.0 + calories * 0.25))
                 / 4.0)) as Hr.
  set (m := Py.max _ _) in *.
  apply Qabs_Qle_condition in Hr.
  assert (m == 0) as Hm0 by (apply Hm; lra).
  set (r := Py.round (m / 4.0)) in *.
  assert (-1 < inject_Z r < 1) as [Hlo Hhi] by (qdiv_lit; split; lra).
  change (-1) with (inject_Z (-1)) in Hlo. change 1 with (inject_Z 1) in Hhi.
  rewrite <- Zlt_Qlt in Hlo, Hhi. lia.
Qed.

(** Without clamping, the calories of the rounded macros differ from the
    target by at most 4/2 + 9/2 + 4/2 = 8.5. *)
Lemma macro_plan_residue (weight_kg calories : Q) (goal : pystr) :
  1.8 * weight_kg * 4.0 + calories * 0.25 <= calories ->
  let '(p, f, c) := macro_plan weight_kg calories goal in
  Qabs (inject_Z (p * 4 + f * 9 + c * 4) - calories) <= 8.5.
Proof.
  intros H. unfold macro_plan.
  pose proof (max_zero_of_nonneg
                (calories - (1.8 * weight_kg * 4.0 + calories * 0.25))) as Hm.
  pose proof (round_error
                (Py.max 0.0 (calories
                             - (1.8 * weight_kg * 4.0 + calories * 0.25))
                 / 4.0)) as Hc.
  set (m := Py.max _ _) in *.
  assert (m == calories - (1.8 * weight_kg * 4.0 + calories * 0.25)) as Hm'
    by (apply Hm; lra).
  pose proof (round_error (1.8 * weight_kg)) as Hp.
  pose proof (round_error (calories * 0.25 / 9.0)) as Hf.
  apply Qabs_Qle_condition in Hp, Hf, Hc. apply Qabs_Qle_condition.
  rewrite !inject_Z_plus, !inject_Z_mult.
  change (inject_Z 4) with 4. change (inject_Z 9) with 9.
  set (p := inject_Z (Py.round (1.8 * weight_kg))) in *.
  set (f := inject_Z (Py.round (calories * 0.25 / 9.0))) in *.
  set (c := inject_Z (Py.round (m / 4.0))) in *.
  qdiv_lit. split; lra.
Qed.

(** *** The assessment of the form handler *)

Lemma assess_inv age gender height_cm weight_kg activity_level goal a :
  assess age gender height_cm weight_kg activity_level goal = Ok a ->
  let T := target_calories_from_goal
             (mifflin_st_jeor_bmr gender weight_kg height_cm age
              * activity_factor activity_level) goal in
  target_calories a = T
  /\ (protein_g a, fat_g a, carbs_g a)
     = macro_plan weight_kg (inject_Z T) goal.
Proof.
  unfold assess. destruct (calc_bmi weight_kg height_cm) as [e | b].
  - discriminate.
  - cbn [mbind result_bind mret result_ret].
    destruct (macro_plan _ _ _) as [[p f] c].
    intros [= <-]. split; reflexivity.
Qed.

(** Outside the ranges of the form clamping can set in: the profile female,
    30 kg, 100 cm, age 100, lowest activity, aggressive cut is assessed with
    target 269 kcal and macros 54 g / 7 g / 0 g, which carry 279 kcal. *)
Lemma clamped_assessment_off_target :
  exists a : Assessment,
    assess 100 female 100 30 level_low goal_cut = Ok a
    /\ target_calories a = 269%Z
    /\ (protein_g a * 4 + fat_g a * 9 + carbs_g a * 4 = 279)%Z
    /\ ~ Qabs (inject_Z (protein_g a * 4 + fat_g a * 9 + carbs_g a * 4)
               - inject_Z (target_calories a)) <= 8.5.
Proof.
  eexists. split; [ vm_compute; reflexivity | ].
  split; [ reflexivity | ]. split; [ reflexivity | ].
  apply Qlt_not_le. reflexivity.
Qed.

(** Whenever carbohydrate is not clamped, the calories of the macros of an
    assessment are within 8.5 kcal of its target. *)
Lemma assessment_macro_residue_unclamped
    age gender height_cm weight_kg activity_level goal a :
  assess age gender height_cm weight_kg activity_level goal = Ok a ->
  1.8 * weight_kg * 4.0 + inject_Z (target_calories a) * 0.25
    <= inject_Z (target_calories a) ->
  Qabs (inject_Z (protein_g a * 4 + fat_g a * 9 + carbs_g a * 4)
        - inject_Z (target_calories a)) <= 8.5.
Proof.
  intros Ha Hfit. apply assess_inv in Ha. cbv zeta in Ha.
  destruct Ha as [HT Hm]. rewrite <- HT in Hm.
  pose proof (macro_plan_residue weight_kg (inject_Z (target_calories a))
                goal Hfit) as Hres.
  rewrite <- Hm in Hres. exact Hres.
Qed.

(** *** Inputs within the ranges of the form

    The form offers age 10..100, height 120..220 cm and weight
    30..200 kg.  On these inputs carbohydrate is never clamped. *)

Lemma activity_factor_ge (level : pystr) : 1.2 <= activity_factor level.
Proof.
  destruct (decide (level = level_low)) as [-> | H1];
    [ vm_compute; discriminate | ].
  destruct (decide (level = level_light)) as [-> | H2];
    [ vm_compute; discriminate | ].
  destruct (decide (level = level_moderate)) as [-> | H3];
    [ vm_compute; discriminate | ].
  destruct (decide (level = level_high)) as [-> | H4];
    [ vm_compute; discriminate | ].
  destruct (decide (level = level_athlete)) as [-> | H5];
    [ vm_compute; discriminate | ].
  unfold activity_factor.
  rewrite activity_factor_unknown by assumption. cbn. lra.
Qed.

Lemma target_calories_ge (tdee : Q) (goal : pystr) :
  0 <= tdee ->
  tdee * 0.85 - (1 # 2) <= inject_Z (target_calories_from_goal tdee goal).
Proof.
  intros Ht. unfold target_calories_from_goal.
  pose proof (round_error (tdee * 0.85)) as H1.
  pose proof (round_error (tdee * 0.90)) as H2.
  pose proof (round_error tdee) as H3.
  pose proof (round_error (tdee * 1.10)) as H4.
  apply Qabs_Qle_condition in H1, H2, H3, H4.
  repeat case_bool_decide; lra.
Qed.

Lemma bmr_ge_female (gender : pystr) (weight_kg height_cm : Q) (age : Z) :
  10 * weight_kg + 6.25 * height_cm - 5 * inject_Z age - 161
    <= mifflin_st_jeor_bmr gender weight_kg height_cm age.
Proof.
  unfold mifflin_st_jeor_bmr. rewrite inject_Z_mult.
  change (inject_Z 5) with 5. case_bool_decide; lra.
Qed.

Lemma form_inputs_not_clamped
    (age : Z) (gender : pystr) (height_cm weight_kg : Q)
    (activity_level goal : pystr) :
  (10 <= age <= 100)%Z ->
  120 <= height_cm <= 220 ->
  30 <= weight_kg <= 200 ->
  let T := target_calories_from_goal
             (mifflin_st_jeor_bmr gender weight_kg height_cm age
              * activity_factor activity_level) goal in
  1.8 * weight_kg * 4.0 + inject_Z T * 0.25 <= inject_Z T.
Proof.
  intros [Ha1 Ha2] [Hh1 Hh2] [Hw1 Hw2] T. subst T.
  pose proof (bmr_ge_female gender weight_kg height_cm age) as Hb.
  pose proof (activity_factor_ge activity_level) as Hf.
  assert (inject_Z age <= 100) as Hage.
  { change 100 with (inject_Z 100). rewrite <- Zle_Qle. exact Ha2. }
  set (b := mifflin_st_jeor_bmr gender weight_kg height_cm age) in *.
  set (k := activity_factor activity_level) in *.
  assert (0 <= b) as Hb0 by lra.
  assert (b * 1.2 <= b * k) as Hbk.
  { rewrite !(Qmult_comm b). apply Qmult_le_compat_r; assumption. }
  pose proof (target_calories_ge (b * k) goal) as Ht.
  assert (0 <= b * k) as Hbk0 by lra.
  specialize (Ht Hbk0).
  set (T := inject_Z (target_calories_from_goal (b * k) goal)) in *.
  lra.
Qed.

(** Hence every assessment of form inputs meets the 8.5 kcal bound. *)
Lemma assess_form_residue
    (age : Z) (gender : pystr) (height_cm weight_kg : Q)
    (activity_level goal : pystr) :
  (10 <= age <= 100)%Z ->
  120 <= height_cm <= 220 ->
  30 <= weight_kg <= 200 ->
  exists a : Assessment,
    assess age gender height_cm weight_kg activity_level goal = Ok a
    /\ Qabs (inject_Z (protein_g a * 4 + fat_g a * 9 + carbs_g a * 4)
             - inject_Z (target_calories a)) <= 8.5.
Proof.
  intros Ha Hh Hw.
  pose proof (form_inputs_not_clamped age gender height_cm weight_kg
                activity_level goal Ha Hh Hw) as Hfit. cbv zeta in Hfit.
  pose proof (macro_plan_residue weight_kg _ goal Hfit) as Hres.
  assert (~ height_cm == 0) as Hnz by (intros E; lra).
  unfold assess, calc_bmi, Py.div.
  rewrite (height_sq_nonzero _ Hnz).
  cbn [mbind result_bind mret result_ret].
  destruct (macro_plan _ _ _) as [[p f] c].
  eexists. split; [ reflexivity | ]. exact Hres.
Qed.

(** C5: for every assessment the pipeline produces, that is, for every
    profile the form delivers (age 10..100, height 120..220 cm, weight
    30..200 kg, any gender, activity level and goal), the assessment exists
    and protein_g*4 + fat_g*9 + carbs_g*4 differs from target_calories by at
    most 8.5 kcal, the rounding of the three macro values
    (4/2 + 9/2 + 4/2). *)
Theorem C5_form_assessment_macro_residue
    (age : Z) (gender : pystr) (height_cm weight_kg : Q)
    (activity_level goal : pystr) :
  (10 <= age <= 100)%Z ->
  120 <= height_cm <= 220 ->
  30 <= weight_kg <= 200 ->
  exists a : Assessment,
    assess age gender height_cm weight_kg activity_level goal = Ok a
    /\ target_calories a
       = target_calories_from_goal
           (mifflin_st_jeor_bmr gender weight_kg height_cm age
            * activity_factor activity_level) goal
    /\ Qabs (inject_Z (protein_g a * 4 + fat_g a * 9 + carbs_g a * 4)
             - inject_Z (target_calories a)) <= 8.5.
Proof.
  intros Ha Hh Hw.
  pose proof (form_inputs_not_clamped age gender height_cm weight_kg
                activity_level goal Ha Hh Hw) as Hfit. cbv zeta in Hfit.
  assert (~ height_cm == 0) as Hnz by (intros E; lra).
  destruct (calc_bmi weight_kg height_cm) as [e | b] eqn:Eb.
  { exfalso. unfold calc_bmi, Py.div in Eb.
    rewrite (height_sq_nonzero _ Hnz) in Eb. discriminate Eb. }
  destruct (assess age gender height_cm weight_kg activity_level goal)
    as [e | a] eqn:Ea.
  { exfalso. unfold assess in Ea. rewrite Eb in Ea.
    cbn [mbind result_bind mret result_ret] in Ea.
    destruct (macro_plan _ _ _) as [[p f] c]. discriminate Ea. }
  exists a. split; [ reflexivity | ].
  destruct (assess_inv _ _ _ _ _ _ _ Ea) as [HT Hm].
  split; [ exact HT | ].
  rewrite HT.
  pose proof (macro_plan_residue weight_kg _ goal Hfit) as Hres.
  rewrite <- Hm in Hres. exact Hres.
Qed.

Lemma C5_form_assessment_macro_residue_witness :
  exists a : Assessment,
    assess 30 male 175 70 level_moderate goal_bulk = Ok a
    /\ Qabs (inject_Z (protein_g a * 4 + fat_g a * 9 + carbs_g a * 4)
             - inject_Z (target_calories a)) <= 8.5.
Proof.
  destruct (C5_form_assessment_macro_residue 30 male 175 70
              level_moderate goal_bulk) as (a & Ha & _ & Hres).
  - lia.
  - split; discriminate.
  - split; discriminate.
  - exists a. split; assumption.
Defined.

(** The sample values of the specification that the code meets. *)
Example bmi_65_170 : calc_bmi 65 170 = Ok 22.49.
Proof. vm_compute. reflexivity. Qed.

Example target_2000_by_goal :
  target_calories_from_goal 2000 goal_cut = 1700%Z
  /\ target_calories_from_goal 2000 goal_cut_mild = 1800%Z
  /\ target_calories_from_goal 2000 goal_keep = 2000%Z
  /\ target_calories_from_goal 2000 goal_bulk = 2200%Z
  /\ target_calories_from_goal 2000 (u "unknown") = 2000%Z.
Proof. vm_compute. repeat split. Qed.

End NutritionFacts.

(** ** Meal plan generator *)

Section MealFacts.
Variable lower : pystr -> pystr.

Lemma list_or_placeholder (l : list pystr) :
  list_or l [placeholder] <> []
  /\ (l = [] -> list_or l [placeholder] = [placeholder]).
Proof.
  destruct l as [| x l]; unfold list_or; split.
  - intros E. inversion E.
  - reflexivity.
  - intros E. inversion E.
  - intros E. inversion E.
Qed.

Lemma take_filter_nil (n : nat) (P : pystr -> bool) (l : list pystr) :
  List.filter P l = [] -> take n (List.filter P l) = [].
Proof. intros ->. destruct n; reflexivity. Qed.

(** Breakfast, lunch and dinner are never empty: with no surviving
    candidate the slot is the placeholder. *)
Lemma main_slots_nonempty (cal p f c : Z) (prefs allergies goal : pystr) :
  let plan := meal_suggestions lower cal p f c prefs allergies goal in
  let avoid := avoid_of allergies in
  (breakfast plan <> [] /\ lunch plan <> [] /\ dinner plan <> [])
  /\ (List.filter (Meals.ok lower avoid) breakfast_candidates = [] ->
      breakfast plan = [placeholder])
  /\ (List.filter (Meals.ok lower avoid) lunch_candidates = [] ->
      lunch plan = [placeholder])
  /\ (List.filter (Meals.ok lower avoid) dinner_candidates = [] ->
      dinner plan = [placeholder]).
Proof.
  cbn [meal_suggestions breakfast lunch dinner]. unfold meal_suggestions.
  cbn [breakfast lunch dinner].
  repeat split;
    try apply list_or_placeholder;
    intros E; rewrite (take_filter_nil _ _ _ E); reflexivity.
Qed.

(** The snack slot has no such fallback. *)
Lemma snack_slot_empty (cal p f c : Z) (prefs allergies goal : pystr) :
  List.filter (Meals.ok lower (avoid_of allergies)) snack_candidates = [] ->
  snack (meal_suggestions lower cal p f c prefs allergies goal) = [].
Proof.
  intros E. unfold meal_suggestions. cbn [snack].
  apply take_filter_nil, E.
Qed.

(** *** The guide keeps the selected note *)

Lemma lstrip_app_stop (X Y : pystr) (c : N) :
  isspace c = false -> lstrip (X ++ c :: Y) = lstrip X ++ c :: Y.
Proof.
  intros Hc. induction X as [| a X IH].
  - cbn [app lstrip]. rewrite Hc. reflexivity.
  - cbn [app lstrip]. destruct (isspace a); [ exact IH | reflexivity ].
Qed.

Lemma strip_inner (M T : pystr) (c : N) :
  isspace c = false ->
  strip (10%N :: 45%N :: M ++ c :: T)
  = 45%N :: M ++ c :: rev (lstrip (rev T)).
Proof.
  intros Hc. unfold strip.
  change (lstrip (10%N :: 45%N :: M ++ c :: T)) with (45%N :: M ++ c :: T).
  assert (rev (45%N :: M ++ c :: T) = rev T ++ c :: rev (45%N :: M)) as ->.
  { change (45%N :: M ++ c :: T) with ((45%N :: M) ++ c :: T).
    rewrite rev_app_distr. cbn [rev]. rewrite <- !app_assoc. reflexivity. }
  rewrite (lstrip_app_stop _ _ _ Hc).
  rewrite rev_app_distr. cbn [rev]. rewrite rev_app_distr, rev_involutive.
  cbn [rev app]. rewrite <- !app_assoc. reflexivity.
Qed.

Lemma startswith_app (n B : pystr) : startswith (n ++ B) n = true.
Proof.
  induction n as [| a n IH]; [ destruct B; reflexivity | ].
  cbn [app startswith]. rewrite N.eqb_refl. exact IH.
Qed.

Lemma contains_app (A n B : pystr) : contains (A ++ n ++ B) n = true.
Proof.
  induction A as [| a A IH].
  - cbn [app]. destruct (n ++ B) eqn:E; cbn [contains]; rewrite <- ?E;
      rewrite startswith_app; reflexivity.
  - cbn [app contains]. rewrite IH. apply orb_true_r.
Qed.

(** For every input the guide holds the note that
    [goal.startswith("減量")] selects. *)
Lemma guide_holds_selected_note
    (cal p f c : Z) (prefs allergies goal : pystr) :
  contains (guide (meal_suggestions lower cal p f c prefs allergies goal))
    (if startswith goal (u "減量") then cut_note else keep_note) = true.
Proof.
  unfold meal_suggestions. cbn [guide].
  set (note := if startswith goal (u "減量") then cut_note else keep_note).
  set (X := match avoid_of allergies with
            | [] => u "なし"
            | _ => join (u ", ") (avoid_of allergies)
            end).
  assert (u "- 1日の目標：" = 45%N :: u " 1日の目標：") as E1
    by (vm_compute; reflexivity).
  assert (u " / アレルギー回避：" = u " / アレルギー回避" ++ [65306%N]) as E2
    by (vm_compute; reflexivity).
  rewrite E1, E2. unfold nl.
  set (A := u " 1日の目標：" ++ str_of_int cal ++ u " kcal / P"
            ++ str_of_int p ++ u "g F" ++ str_of_int f ++ u "g C"
            ++ str_of_int c ++ u "g" ++ [10%N]
            ++ u "- 配分例：朝 25% / 昼 35% / 夜 30% / 間食 10%" ++ [10%N]
            ++ u "- 水分：目安 体重(kg)×30〜35 ml" ++ [10%N] ++ u "- ").
  set (B := u " " ++ [10%N] ++ u "- 好み：" ++ str_or prefs (u "（未入力）")
            ++ u " / アレルギー回避").
  match goal with
  | |- contains (strip ?S) _ = true =>
      assert (S = 10%N :: 45%N :: (A ++ note ++ B) ++ 65306%N :: (X ++ [10%N]))
        as ->
  end.
  { subst A B. repeat first [ rewrite <- app_assoc | progress cbn [app] ].
    reflexivity. }
  rewrite strip_inner by reflexivity.
  set (tail := 65306%N :: rev (lstrip (rev (X ++ [10%N])))).
  replace (45%N :: (A ++ note ++ B) ++ tail)
    with ((45%N :: A) ++ note ++ (B ++ tail))
    by (cbn [app]; rewrite <- !app_assoc; reflexivity).
  apply contains_app.
Qed.

End MealFacts.

(** C2 (the code misses it for the snack): with the allergy text ["枝豆"]
    the only snack candidate is filtered out and the snack slot of the plan
    is the empty list, not the placeholder the other three slots fall back
    to.  On the strings involved [str.lower()] is [lower_ascii]: they hold no
    cased letter but a lowercase g. *)
Theorem C2_snack_slot_can_be_empty :
  let allergies := u "枝豆" in
  let plan := meal_suggestions lower_ascii 2000 126 56 249 [] allergies
                goal_keep in
  List.filter (Meals.ok lower_ascii (avoid_of allergies)) snack_candidates = []
  /\ snack plan = []
  /\ snack plan <> [placeholder].
Proof. vm_compute. repeat split. discriminate. Qed.

(** The coaching note is chosen by [goal.startswith("減量")]: of the four
    goals of the form only the aggressive cut has that prefix. *)
Lemma lowfat_of_goals :
  startswith goal_cut (u "減量") = true
  /\ startswith goal_cut_mild (u "減量") = false
  /\ startswith goal_keep (u "減量") = false
  /\ startswith goal_bulk (u "減量") = false.
Proof. vm_compute. repeat split. Qed.

(** C3 (the code misses the mild cut): for the goal ["緩やか減量（-10%）"]
    the guide of every input holds the maintain/bulk note, and the guide of
    the input below does not hold the cut note; the claim asks for the cut
    note there. *)
Theorem C3_mild_cut_gets_maintain_note :
  (forall (lower : pystr -> pystr) (cal p f c : Z) (prefs allergies : pystr),
      contains
        (guide (meal_suggestions lower cal p f c prefs allergies goal_cut_mild))
        keep_note = true)
  /\ contains
       (guide (meal_suggestions lower_ascii 1800 117 50 221 [] []
                 goal_cut_mild))
       cut_note = false.
Proof.
  split.
  - intros lower cal p f c prefs allergies.
    pose proof (guide_holds_selected_note lower cal p f c prefs allergies
                  goal_cut_mild) as H.
    destruct lowfat_of_goals as (_ & Hmild & _).
    rewrite Hmild in H. exact H.
  - vm_compute. reflexivity.
Qed.

(** The aggressive cut does get the cut note. *)
Lemma aggressive_cut_gets_cut_note
    (lower : pystr -> pystr) (cal p f c : Z) (prefs allergies : pystr) :
  contains
    (guide (meal_suggestions lower cal p f c prefs allergies goal_cut))
    cut_note = true.
Proof.
  pose proof (guide_holds_selected_note lower cal p f c prefs allergies
                goal_cut) as H.
  destruct lowfat_of_goals as (Hcut & _).
  rewrite Hcut in H. exact H.
Qed.

(** The guide of a maintenance plan, line by line. *)
Example guide_text :
  guide (meal_suggestions lower_ascii 2000 126 56 249 [] (u "乳, 卵")
           goal_keep)
  = u "- 1日の目標：2000 kcal / P126g F56g C249g" ++ nl
    ++ u "- 配分例：朝 25% / 昼 35% / 夜 30% / 間食 10%" ++ nl
    ++ u "- 水分：目安 体重(kg)×30〜35 ml" ++ nl
    ++ u "- 増量/維持：炭水化物を運動前後に寄せる " ++ nl
    ++ u "- 好み：（未入力） / アレルギー回避：乳, 卵".
Proof. vm_compute. reflexivity. Qed.

(** Dishes naming an allergen are dropped, catalogue order is kept. *)
Example breakfast_without_egg_and_yoghurt :
  breakfast (meal_suggestions lower_ascii 2000 126 56 249 []
               (u "卵,　ヨーグルト ") goal_keep)
  = [ u "プロテインシェイク+バナナ" ].
Proof. vm_compute. reflexivity. Qed.

(** ** Posture analyzer *)

Section PostureFacts.
Import Posture Stance.
Local Open Scope R_scope.

Lemma div_nonzero (x y : R) : y > 0 -> Posture.div x y = Ok (x / y).
Proof.
  intros Hy. unfold Posture.div.
  destruct (Req_dec_T y 0) as [E | _]; [ lra | reflexivity ].
Qed.

(** With landmarks, the analysis always returns a report; its findings are
    the symmetry findings followed by the knee finding. *)
Lemma analyze_posture_findings (lm : landmarks) :
  exists adv : list advice_item,
    analyze_posture true (Some lm)
    = Ok (mkReport true (u "解析完了")
            (symmetry_findings lm ++ knee_findings lm) (Some adv))
    /\ (symmetry_findings lm ++ knee_findings lm = [] -> adv = []).
Proof.
  unfold analyze_posture, symmetry_findings, knee_findings, knee_w, ankle_w.
  cbn [negb].
  set (sd := line_angle_deg (lm RIGHT_SHOULDER) (lm LEFT_SHOULDER)).
  set (hd := line_angle_deg (lm RIGHT_HIP) (lm LEFT_HIP)).
  set (ed := line_angle_deg (lm RIGHT_EAR) (lm LEFT_EAR)).
  set (kw := dist (lm LEFT_KNEE) (lm RIGHT_KNEE)).
  set (aw := dist (lm LEFT_ANKLE) (lm RIGHT_ANKLE)).
  destruct (Rge_dec (Rabs sd) 5), (Rge_dec (Rabs hd) 5),
    (Rge_dec (Rabs ed) 5), (Rgt_dec aw 0) as [Haw | Haw];
    rewrite ?(div_nonzero kw aw Haw);
    cbn [mbind result_bind mret result_ret app];
    try destruct (Rlt_dec (kw / aw) (9 / 10));
    rewrite ?(div_nonzero kw aw Haw);
    cbn [mbind result_bind mret result_ret app existsb
           is_shoulder is_hip is_head is_knee orb];
    eexists; (split; [ reflexivity | ]); intros E;
    first [ discriminate E | reflexivity ].
Qed.

(** *** Geometry *)

Lemma atan2_level_facing (x : R) : 0 <= x -> atan2 0 x = 0.
Proof.
  intros Hx. unfold atan2.
  destruct (Rlt_dec 0 x).
  - unfold Rdiv. rewrite Rmult_0_l. apply atan_0.
  - destruct (Rlt_dec x 0); [ lra | ].
    destruct (Rlt_dec 0 0); [ lra | ]. reflexivity.
Qed.

Lemma atan2_level_reversed (x : R) : x < 0 -> atan2 0 x = PI.
Proof.
  intros Hx. unfold atan2.
  destruct (Rlt_dec 0 x); [ lra | ].
  destruct (Rlt_dec x 0); [ | lra ].
  destruct (Rle_dec 0 0); [ | lra ].
  unfold Rdiv. rewrite Rmult_0_l, atan_0. ring.
Qed.

Lemma line_angle_level_facing (p1 p2 : point) :
  snd p1 = snd p2 -> fst p1 <= fst p2 -> line_angle_deg p1 p2 = 0.
Proof.
  intros Hy Hx. unfold line_angle_deg, degrees. cbv zeta.
  replace (snd p2 - snd p1) with 0 by lra.
  rewrite atan2_level_facing by lra. ring.
Qed.

(** Seen from behind (left point to the left of the right point) a level
    line measures 180 degrees. *)
Lemma line_angle_level_reversed (p1 p2 : point) :
  snd p1 = snd p2 -> fst p2 < fst p1 -> line_angle_deg p1 p2 = 180.
Proof.
  intros Hy Hx. unfold line_angle_deg, degrees. cbv zeta.
  replace (snd p2 - snd p1) with 0 by lra.
  rewrite atan2_level_reversed by lra. field. apply PI_neq0.
Qed.

Lemma dist_level (p1 p2 : point) :
  snd p1 = snd p2 -> dist p1 p2 = Rabs (fst p2 - fst p1).
Proof.
  intros Hy. unfold dist, hypot.
  replace (snd p2 - snd p1) with 0 by lra.
  rewrite Rmult_0_l, Rplus_0_r. apply sqrt_Rsqr_abs.
Qed.

Lemma dist_nonneg (p1 p2 : point) : 0 <= dist p1 p2.
Proof. apply sqrt_pos. Qed.

Lemma symmetry_findings_no_knee (lm : landmarks) :
  existsb is_knee (symmetry_findings lm) = false.
Proof.
  unfold symmetry_findings. cbv zeta.
  destruct (Rge_dec _ 5), (Rge_dec _ 5), (Rge_dec _ 5); reflexivity.
Qed.

Lemma knee_findings_fire (lm : landmarks) :
  existsb is_knee (knee_findings lm) = true
  <-> ankle_w lm > 0 /\ knee_w lm / ankle_w lm < 9 / 10.
Proof.
  unfold knee_findings.
  destruct (Rgt_dec (ankle_w lm) 0) as [Ha | Ha].
  - destruct (Rlt_dec (knee_w lm / ankle_w lm) (9 / 10)) as [Hr | Hr];
      cbn; split; auto; try discriminate. intros [_ H]. contradiction.
  - cbn. split; [ discriminate | ]. intros [H _]. contradiction.
Qed.

(** *** Knee tracking and mirrored stances *)



(** With coinciding ankles the knee check is skipped. *)
Lemma knee_check_skipped (lm : landmarks) :
  ankle_w lm = 0 ->
  exists rep : report,
    analyze_posture true (Some lm) = Ok rep
    /\ existsb is_knee (findings rep) = false.
Proof.
  intros H0. destruct (analyze_posture_findings lm) as (adv & -> & _).
  eexists. split; [ reflexivity | ]. cbn [findings].
  rewrite existsb_app, symmetry_findings_no_knee, orb_false_l.
  apply not_true_is_false. intros Hk.
  apply knee_findings_fire in Hk. lra.
Qed.

Lemma knock_kneed_mirrored : mirrored knock_kneed (1 / 2).
Proof.
  unfold mirrored, sides. repeat constructor; cbn; lra.
Qed.

Lemma upright_mirrored : mirrored upright (1 / 2).
Proof.
  unfold mirrored, sides. repeat constructor; cbn; lra.
Qed.

Lemma mirrored_level (lm : landmarks) (m : R) (l r : PoseLandmark) :
  mirrored lm m -> In (l, r) sides -> snd (lm l) = snd (lm r).
Proof.
  intros Hm Hin. unfold mirrored in Hm.
  rewrite List.Forall_forall in Hm. apply (Hm (l, r) Hin).
Qed.

Lemma facing_order (lm : landmarks) (l r : PoseLandmark) :
  facing lm -> In (l, r) upper_sides -> fst (lm r) <= fst (lm l).
Proof.
  intros Hf Hin. unfold facing in Hf.
  rewrite List.Forall_forall in Hf. apply (Hf (l, r) Hin).
Qed.

Lemma symmetry_findings_mirrored (lm : landmarks) (m : R) :
  mirrored lm m -> facing lm -> symmetry_findings lm = [].
Proof.
  intros Hm Hf. unfold symmetry_findings. cbv zeta.
  rewrite !line_angle_level_facing;
    try (symmetry; apply (mirrored_level lm m); [ exact Hm | cbn; tauto ]);
    try (apply facing_order; [ exact Hf | cbn; tauto ]).
  rewrite Rabs_R0.
  destruct (Rge_dec 0 5); [ lra | reflexivity ].
Qed.

Lemma knee_findings_wide (lm : landmarks) :
  9 / 10 * ankle_w lm <= knee_w lm -> knee_findings lm = [].
Proof.
  intros Hw. unfold knee_findings.
  destruct (Rgt_dec (ankle_w lm) 0) as [Ha | Ha]; [ | reflexivity ].
  destruct (Rlt_dec (knee_w lm / ankle_w lm) (9 / 10)) as [Hr | Hr];
    [ | reflexivity ].
  exfalso. apply (Rmult_lt_compat_r (ankle_w lm)) in Hr; [ | lra ].
  unfold Rdiv in Hr at 1. rewrite Rmult_assoc, Rinv_l, Rmult_1_r in Hr; lra.
Qed.

(** C7 (as stated, refuted): [knock_kneed] is mirrored across the midline
    x = 1/2 with every pair at equal heights, and its report holds the
    knee-tracking finding with ratio 1/4. *)
Lemma C7_mirrored_knock_knees_reported :
  mirrored knock_kneed (1 / 2)
  /\ exists rep : report,
       analyze_posture true (Some knock_kneed) = Ok rep
       /\ findings rep <> []
       /\ existsb is_knee (findings rep) = true.
Proof.
  split; [ exact knock_kneed_mirrored | ].
  destruct (analyze_posture_findings knock_kneed) as (adv & -> & _).
  eexists. split; [ reflexivity | ]. cbn [findings].
  assert (existsb is_knee
            (symmetry_findings knock_kneed ++ knee_findings knock_kneed)
          = true) as Hk.
  { rewrite existsb_app, symmetry_findings_no_knee, orb_false_l.
    apply knee_findings_fire.
    unfold ankle_w, knee_w. rewrite !dist_level by reflexivity. cbn.
    replace (3 / 10 - 7 / 10) with (- (2 / 5)) by lra.
    replace (9 / 20 - 11 / 20) with (- (1 / 10)) by lra.
    rewrite !Rabs_Ropp, !Rabs_right by lra. split; lra. }
  split; [ | exact Hk ].
  intros E. rewrite E in Hk. discriminate Hk.
Qed.

(** C7 (amended): for every landmark set mirrored across a vertical
    midline with each pair at equal heights, seen from the front (the right
    shoulder, hip and ear not to the right of the left ones) and with the
    knees at least 0.9 times as far apart as the ankles, the report has no
    finding and no advice. *)
Theorem C7_mirrored_facing_no_findings (lm : landmarks) (m : R) :
  mirrored lm m ->
  facing lm ->
  9 / 10 * ankle_w lm <= knee_w lm ->
  analyze_posture true (Some lm)
  = Ok (mkReport true (u "解析完了") [] (Some [])).
Proof.
  intros Hm Hf Hw.
  destruct (analyze_posture_findings lm) as (adv & -> & Hadv).
  rewrite (symmetry_findings_mirrored lm m Hm Hf) in *.
  rewrite (knee_findings_wide lm Hw) in *.
  rewrite (Hadv eq_refl). reflexivity.
Qed.

Lemma C7_mirrored_facing_no_findings_witness :
  mirrored upright (1 / 2)
  /\ facing upright
  /\ 9 / 10 * ankle_w upright <= knee_w upright
  /\ analyze_posture true (Some upright)
     = Ok (mkReport true (u "解析完了") [] (Some [])).
Proof.
  assert (facing upright) as Hf.
  { unfold facing, upper_sides. repeat constructor; cbn; lra. }
  assert (9 / 10 * ankle_w upright <= knee_w upright) as Hw.
  { unfold ankle_w, knee_w. rewrite !dist_level by reflexivity. cbn.
    replace (3 / 10 - 7 / 10) with (- (2 / 5)) by lra.
    rewrite !Rabs_Ropp, !Rabs_right by lra. lra. }
  split; [ exact upright_mirrored | ].
  split; [ exact Hf | ]. split; [ exact Hw | ].
  exact (C7_mirrored_facing_no_findings upright (1 / 2)
           upright_mirrored Hf Hw).
Defined.

(** Seen from behind, a mirrored stance is reported as tilted by 180
    degrees at shoulders, hips and head. *)
Lemma mirrored_reversed_shoulders (lm : landmarks) (m : R) :
  mirrored lm m ->
  fst (lm LEFT_SHOULDER) < fst (lm RIGHT_SHOULDER) ->
  In (Shoulder_tilt 180) (symmetry_findings lm).
Proof.
  intros Hm Hx. unfold symmetry_findings. cbv zeta.
  rewrite (line_angle_level_reversed (lm RIGHT_SHOULDER) (lm LEFT_SHOULDER));
    [ | symmetry; apply (mirrored_level lm m); [ exact Hm | cbn; tauto ]
      | exact Hx ].
  destruct (Rge_dec (Rabs 180) 5) as [_ | Hn].
  - left. reflexivity.
  - exfalso. apply Hn. rewrite Rabs_right; lra.
Qed.

End PostureFacts.

(** * Further properties of the code *)

(** ** Nutrition calculator *)

Section MoreNutrition.
Local Open Scope Q_scope.

Lemma round_mono (x y : Q) : x <= y -> (Py.round x <= Py.round y)%Z.
Proof.
  intros Hxy.
  pose proof (Qfloor_resp_le _ _ Hxy) as Hf.
  destruct (Z_lt_le_dec (Qfloor x) (Qfloor y)) as [Hlt | Hge].
  - destruct (round_cases x) as [-> | ->], (round_cases y) as [-> | ->]; lia.
  - assert (Qfloor x = Qfloor y) as E by lia.
    unfold Py.round. rewrite E.
    destruct (x - inject_Z (Qfloor y) ?= 1 # 2) eqn:Ex,
             (y - inject_Z (Qfloor y) ?= 1 # 2) eqn:Ey;
      try (destruct (Z.even (Qfloor y))); try lia; exfalso;
      repeat match goal with
        | H : (_ ?= _) = Eq |- _ => apply Qeq_alt in H
        | H : (_ ?= _) = Lt |- _ => apply Qlt_alt in H
        | H : (_ ?= _) = Gt |- _ => apply Qgt_alt in H
        end; lra.
Qed.

Lemma height_sq_opp (height_cm : Q) :
  ((- height_cm) / 100) ^ 2 == (height_cm / 100) ^ 2.
Proof. simpl. qdiv_lit. ring. Qed.

(** X1: a height of 0 makes [calc_bmi] raise ZeroDivisionError whatever the
    weight, and with it the whole computation of the form handler whatever
    the other inputs; a negative height is not rejected: it gives the same
    result as the positive height of the same size. *)
Theorem X1_bmi_zero_and_negative_height
    (age : Z) (gender : pystr) (height_cm weight_kg : Q)
    (activity_level goal : pystr) :
  calc_bmi weight_kg 0 = Raise ZeroDivisionError
  /\ assess age gender 0 weight_kg activity_level goal
     = Raise ZeroDivisionError
  /\ calc_bmi weight_kg (- height_cm) = calc_bmi weight_kg height_cm.
Proof.
  split; [ reflexivity | ]. split; [ reflexivity | ].
  pose proof (height_sq_opp height_cm) as E.
  unfold calc_bmi, Py.div.
  assert (Qeq_bool ((- height_cm / 100) ^ 2) 0
          = Qeq_bool ((height_cm / 100) ^ 2) 0) as ->.
  { destruct (Qeq_bool ((height_cm / 100) ^ 2) 0) eqn:B.
    - apply Qeq_bool_iff. apply Qeq_bool_iff in B. rewrite E. exact B.
    - apply not_true_is_false. intros B'. apply Qeq_bool_iff in B'.
      rewrite E in B'. apply Qeq_bool_iff in B'. congruence. }
  destruct (Qeq_bool ((height_cm / 100) ^ 2) 0); [ reflexivity | ].
  cbn [mbind result_bind mret result_ret]. f_equal.
  unfold Py.round_nd. f_equal. f_equal. apply round_comp.
  rewrite E. reflexivity.
Qed.

Lemma activity_factor_le (level : pystr) : activity_factor level <= 1.9.
Proof.
  destruct (decide (level = level_low)) as [-> | H1];
    [ vm_compute; discriminate | ].
  destruct (decide (level = level_light)) as [-> | H2];
    [ vm_compute; discriminate | ].
  destruct (decide (level = level_moderate)) as [-> | H3];
    [ vm_compute; discriminate | ].
  destruct (decide (level = level_high)) as [-> | H4];
    [ vm_compute; discriminate | ].
  destruct (decide (level = level_athlete)) as [-> | H5];
    [ vm_compute; discriminate | ].
  unfold activity_factor.
  rewrite activity_factor_unknown by assumption. cbn. lra.
Qed.

(** X2: whatever string is passed as activity level, the factor lies
    between 1.2 and 1.9, so the TDEE of the form handler is between 1.2 and
    1.9 times a non-negative BMR. *)
Theorem X2_activity_factor_range (level : pystr) (bmr : Q) :
  1.2 <= activity_factor level <= 1.9
  /\ (0 <= bmr ->
      1.2 * bmr <= bmr * activity_factor level <= 1.9 * bmr).
Proof.
  pose proof (activity_factor_ge level) as Hlo.
  pose proof (activity_factor_le level) as Hhi.
  split; [ split; assumption | ].
  intros Hb. set (k := activity_factor level) in *. split; nra.
Qed.

Lemma X2_activity_factor_range_witness :
  1.2 * 1500 <= 1500 * activity_factor (u "unknown") <= 1.9 * 1500.
Proof.
  apply (X2_activity_factor_range (u "unknown") 1500). discriminate.
Defined.

Lemma target_calories_le (tdee : Q) (goal : pystr) :
  0 <= tdee ->
  inject_Z (target_calories_from_goal tdee goal) <= tdee * 1.10 + (1 # 2).
Proof.
  intros Ht. unfold target_calories_from_goal.
  pose proof (round_error (tdee * 0.85)) as H1.
  pose proof (round_error (tdee * 0.90)) as H2.
  pose proof (round_error tdee) as H3.
  pose proof (round_error (tdee * 1.10)) as H4.
  apply Qabs_Qle_condition in H1, H2, H3, H4.
  repeat case_bool_decide; lra.
Qed.

(** X3: for a non-negative TDEE and any goal string, known or not, the
    calorie target stays within the band from 85% to 110% of the TDEE, up to
    the half unit of rounding. *)
Theorem X3_target_within_band (tdee : Q) (goal : pystr) :
  0 <= tdee ->
  tdee * 0.85 - 0.5 <= inject_Z (target_calories_from_goal tdee goal)
  /\ inject_Z (target_calories_from_goal tdee goal) <= tdee * 1.10 + 0.5.
Proof.
  intros Ht.
  pose proof (target_calories_ge tdee goal Ht) as Hlo.
  pose proof (target_calories_le tdee goal Ht) as Hhi.
  split; lra.
Qed.

Lemma X3_target_within_band_witness :
  0 <= 2000
  /\ 2000 * 0.85 - 0.5 <= inject_Z (target_calories_from_goal 2000 goal_cut).
Proof.
  assert (0 <= 2000) as H by discriminate.
  split; [ exact H | ].
  apply (X3_target_within_band 2000 goal_cut H).
Defined.

(** X4: for a non-negative TDEE the four goals of the form are ordered:
    the aggressive cut gets at most the calories of the mild cut, which gets
    at most those of maintenance, which gets at most those of the bulk. *)
Theorem X4_targets_ordered_by_goal (tdee : Q) :
  0 <= tdee ->
  (target_calories_from_goal tdee goal_cut
   <= target_calories_from_goal tdee goal_cut_mild)%Z
  /\ (target_calories_from_goal tdee goal_cut_mild
      <= target_calories_from_goal tdee goal_keep)%Z
  /\ (target_calories_from_goal tdee goal_keep
      <= target_calories_from_goal tdee goal_bulk)%Z.
Proof.
  intros Ht.
  assert (target_calories_from_goal tdee goal_cut = Py.round (tdee * 0.85))
    as -> by (unfold target_calories_from_goal;
              rewrite bool_decide_eq_true_2 by reflexivity; reflexivity).
  assert (target_calories_from_goal tdee goal_cut_mild
          = Py.round (tdee * 0.90)) as ->.
  { unfold target_calories_from_goal.
    rewrite (bool_decide_eq_false_2 (goal_cut_mild = goal_cut)) by str_neq.
    rewrite bool_decide_eq_true_2 by reflexivity. reflexivity. }
  assert (target_calories_from_goal tdee goal_keep = Py.round tdee) as ->.
  { unfold target_calories_from_goal.
    rewrite (bool_decide_eq_false_2 (goal_keep = goal_cut)) by str_neq.
    rewrite (bool_decide_eq_false_2 (goal_keep = goal_cut_mild)) by str_neq.
    rewrite bool_decide_eq_true_2 by reflexivity. reflexivity. }
  assert (target_calories_from_goal tdee goal_bulk = Py.round (tdee * 1.10))
    as ->.
  { unfold target_calories_from_goal.
    rewrite (bool_decide_eq_false_2 (goal_bulk = goal_cut)) by str_neq.
    rewrite (bool_decide_eq_false_2 (goal_bulk = goal_cut_mild)) by str_neq.
    rewrite (bool_decide_eq_false_2 (goal_bulk = goal_keep)) by str_neq.
    rewrite bool_decide_eq_true_2 by reflexivity. reflexivity. }
  repeat split; apply round_mono; lra.
Qed.

Lemma X4_targets_ordered_by_goal_witness :
  (target_calories_from_goal 2000 goal_cut
   <= target_calories_from_goal 2000 goal_cut_mild)%Z.
Proof.
  assert (0 <= 2000) as H by discriminate.
  apply (X4_targets_ordered_by_goal 2000 H).
Defined.

(** X5: a goal string that is none of the four goals of the form is treated
    as maintenance: the target is the rounded TDEE, the same as for
    ["現状維持"]. *)
Theorem X5_unknown_goal_is_maintenance (tdee : Q) (goal : pystr) :
  goal <> goal_cut -> goal <> goal_cut_mild ->
  goal <> goal_keep -> goal <> goal_bulk ->
  target_calories_from_goal tdee goal = Py.round tdee
  /\ target_calories_from_goal tdee goal
     = target_calories_from_goal tdee goal_keep.
Proof.
  intros H1 H2 H3 H4. unfold target_calories_from_goal.
  rewrite (bool_decide_eq_false_2 (goal = goal_cut)) by exact H1.
  rewrite (bool_decide_eq_false_2 (goal = goal_cut_mild)) by exact H2.
  rewrite (bool_decide_eq_false_2 (goal = goal_keep)) by exact H3.
  rewrite (bool_decide_eq_false_2 (goal = goal_bulk)) by exact H4.
  rewrite (bool_decide_eq_false_2 (goal_keep = goal_cut)) by str_neq.
  rewrite (bool_decide_eq_false_2 (goal_keep = goal_cut_mild)) by str_neq.
  rewrite bool_decide_eq_true_2 by reflexivity.
  split; reflexivity.
Qed.

Lemma X5_unknown_goal_is_maintenance_witness :
  target_calories_from_goal 2000.4 [] = 2000%Z.
Proof.
  destruct (X5_unknown_goal_is_maintenance 2000.4 []) as [H _];
    try str_neq.
  rewrite H. vm_compute. reflexivity.
Defined.

(** X6: when protein and fat calories (1.8 g/kg * 4 and 25% of the
    calories) reach or exceed the calories, carbohydrate is 0 g and the
    calories of the rounded macros follow protein plus fat, within
    4/2 + 9/2 = 6.5, instead of the calorie target. *)
Theorem X6_macro_plan_clamped (weight_kg calories : Q) (goal : pystr) :
  calories <= 1.8 * weight_kg * 4.0 + calories * 0.25 ->
  let '(p, f, c) := macro_plan weight_kg calories goal in
  c = 0%Z
  /\ Qabs (inject_Z (p * 4 + f * 9 + c * 4)
           - (1.8 * weight_kg * 4.0 + calories * 0.25)) <= 6.5.
Proof.
  intros H.
  pose proof (macro_plan_clamped weight_kg calories goal H) as Hc.
  unfold macro_plan in *. cbn [snd] in Hc. rewrite Hc.
  split; [ reflexivity | ].
  pose proof (round_error (1.8 * weight_kg)) as Hp.
  pose proof (round_error (calories * 0.25 / 9.0)) as Hf.
  apply Qabs_Qle_condition in Hp, Hf. apply Qabs_Qle_condition.
  rewrite !inject_Z_plus, !inject_Z_mult.
  change (inject_Z 4) with 4. change (inject_Z 9) with 9.
  change (inject_Z 0) with 0.
  set (p := inject_Z (Py.round (1.8 * weight_kg))) in *.
  set (f := inject_Z (Py.round (calories * 0.25 / 9.0))) in *.
  qdiv_lit. split; lra.
Qed.

Lemma X6_macro_plan_clamped_witness :
  snd (macro_plan 100 500 goal_keep) = 0%Z.
Proof.
  assert (500 <= 1.8 * 100 * 4.0 + 500 * 0.25) as H by discriminate.
  pose proof (X6_macro_plan_clamped 100 500 goal_keep H) as Hx.
  destruct (macro_plan 100 500 goal_keep) as [[p f] c].
  destruct Hx as [Hc _]. exact Hc.
Defined.

Lemma inject_Z_pos (z : Z) : 0 < inject_Z z -> (0 < z)%Z.
Proof.
  intros H. change 0 with (inject_Z 0) in H.
  rewrite <- Zlt_Qlt in H. exact H.
Qed.

Lemma bmi_positive (weight_kg height_cm : Q) :
  30 <= weight_kg -> 120 <= height_cm <= 220 ->
  1 <= weight_kg / (height_cm / 100) ^ 2.
Proof.
  intros Hw [Hh1 Hh2].
  assert (0 < (height_cm / 100) ^ 2 <= 30) as [Hpos Hle].
  { simpl. qdiv_lit. set (h := height_cm * (1 # 100)).
    assert (1 <= h <= 3) as [H1 H3] by (subst h; split; lra).
    split; nra. }
  apply Qle_shift_div_l; [ exact Hpos | lra ].
Qed.

(** X8: for every input the form accepts (age 10..100, height 120..220 cm,
    weight 30..200 kg, any gender, activity level and goal string) the
    handler's computation succeeds, every figure of the assessment is
    positive, carbohydrate is not clamped, and the calories of the macros
    are within 8.5 kcal of the target. *)
Theorem X8_form_inputs_assessed
    (age : Z) (gender : pystr) (height_cm weight_kg : Q)
    (activity_level goal : pystr) :
  (10 <= age <= 100)%Z ->
  120 <= height_cm <= 220 ->
  30 <= weight_kg <= 200 ->
  exists a : Assessment,
    assess age gender height_cm weight_kg activity_level goal = Ok a
    /\ 0 < bmi a /\ 0 < bmr a /\ 0 < tdee a
    /\ (0 < target_calories a)%Z
    /\ (0 < protein_g a)%Z /\ (0 < fat_g a)%Z /\ (0 < carbs_g a)%Z
    /\ Qabs (inject_Z (protein_g a * 4 + fat_g a * 9 + carbs_g a * 4)
             - inject_Z (target_calories a)) <= 8.5.
Proof.
  intros Ha Hh Hw.
  pose proof (form_inputs_not_clamped age gender height_cm weight_kg
                activity_level goal Ha Hh Hw) as Hfit. cbv zeta in Hfit.
  pose proof (macro_plan_residue weight_kg _ goal Hfit) as Hres.
  pose proof (bmr_ge_female gender weight_kg height_cm age) as Hb.
  pose proof (activity_factor_ge activity_level) as Hk.
  assert (inject_Z age <= 100) as Hage.
  { change 100 with (inject_Z 100). rewrite <- Zle_Qle. apply Ha. }
  assert (~ height_cm == 0) as Hnz by (intros E; lra).
  pose proof (bmi_positive weight_kg height_cm (proj1 Hw) Hh) as Hq.
  unfold assess, calc_bmi, Py.div.
  rewrite (height_sq_nonzero _ Hnz).
  cbn [mbind result_bind mret result_ret].
  set (b := mifflin_st_jeor_bmr gender weight_kg height_cm age) in *.
  set (k := activity_factor activity_level) in *.
  assert (389 <= b) as Hb389 by lra.
  assert (b * 1.2 <= b * k) as Hbk.
  { rewrite !(Qmult_comm b). apply Qmult_le_compat_r; lra. }
  assert (0 <= b * k) as Hbk0 by lra.
  pose proof (target_calories_ge (b * k) goal Hbk0) as Ht.
  unfold macro_plan in *.
  pose proof (round_error (1.8 * weight_kg)) as Hp.
  set (T := target_calories_from_goal (b * k) goal) in *.
  pose proof (round_error (inject_Z T * 0.25 / 9.0)) as Hf.
  pose proof (max_zero_of_nonneg
                (inject_Z T - (1.8 * weight_kg * 4.0 + inject_Z T * 0.25)))
    as Hm.
  pose proof (round_error
                (Py.max 0.0 (inject_Z T
                             - (1.8 * weight_kg * 4.0 + inject_Z T * 0.25))
                 / 4.0)) as Hc.
  set (m := Py.max _ _) in *.
  assert (m == inject_Z T - (1.8 * weight_kg * 4.0 + inject_Z T * 0.25))
    as Hm' by (apply Hm; lra).
  pose proof (round_error (weight_kg / (height_cm / 100) ^ 2
                           * inject_Z (10 ^ Z.of_nat 2))) as Hbmi.
  apply Qabs_Qle_condition in Hp, Hf, Hc, Hbmi.
  eexists. split; [ reflexivity | ].
  cbn [bmi bmr tdee target_calories protein_g fat_g carbs_g].
  split.
  { unfold Py.round_nd. change (inject_Z (10 ^ Z.of_nat 2)) with 100 in *.
    set (q := weight_kg / (height_cm / 100) ^ 2) in *.
    set (r := inject_Z (Py.round (q * 100))) in *.
    qdiv_lit. lra. }
  split; [ lra | ]. split; [ lra | ].
  split; [ apply inject_Z_pos; lra | ].
  split; [ apply inject_Z_pos; lra | ].
  split; [ apply inject_Z_pos; qdiv_lit; lra | ].
  split; [ apply inject_Z_pos; qdiv_lit; lra | ].
  exact Hres.
Qed.

Lemma X8_form_inputs_assessed_witness :
  exists a : Assessment,
    assess 35 male 170 65 level_low goal_keep = Ok a
    /\ (0 < carbs_g a)%Z.
Proof.
  destruct (X8_form_inputs_assessed 35 male 170 65 level_low goal_keep)
    as (a & Ha & _ & _ & _ & _ & _ & _ & Hc & _).
  - lia.
  - split; discriminate.
  - split; discriminate.
  - exists a. split; assumption.
Defined.

End MoreNutrition.

(** ** Meal plan generator *)

Section MoreStrings.

Lemma lstrip_head (s : pystr) :
  match lstrip s with
  | c :: _ => isspace c = false
  | [] => True
  end.
Proof.
  induction s as [| a s IH]; [ exact I | ].
  cbn [lstrip]. destruct (isspace a) eqn:E; [ exact IH | exact E ].
Qed.

Lemma lstrip_fixed (s : pystr) :
  match s with c :: _ => isspace c = false | [] => True end ->
  lstrip s = s.
Proof.
  destruct s as [| c s]; [ reflexivity | ].
  intros E. cbn [lstrip]. rewrite E. reflexivity.
Qed.

Lemma lstrip_In (c : N) (s : pystr) : In c (lstrip s) -> In c s.
Proof.
  induction s as [| a s IH]; [ intros [] | ].
  cbn [lstrip]. destruct (isspace a); [ | intros H; exact H ].
  intros H. right. apply IH, H.
Qed.

Lemma lstrip_blank (s : pystr) :
  (forall c, In c s -> isspace c = true) -> lstrip s = [].
Proof.
  induction s as [| a s IH]; [ reflexivity | ].
  intros H. cbn [lstrip]. rewrite (H a) by (left; reflexivity).
  apply IH. intros c Hc. apply H. right. exact Hc.
Qed.

Lemma strip_In (c : N) (s : pystr) : In c (strip s) -> In c s.
Proof.
  unfold strip. intros H.
  apply in_rev, lstrip_In in H. apply in_rev in H.
  apply lstrip_In, H.
Qed.

Lemma strip_blank (s : pystr) :
  (forall c, In c s -> isspace c = true) -> strip s = [].
Proof.
  intros H. unfold strip. rewrite (lstrip_blank s H). reflexivity.
Qed.

(** A stripped string begins and ends with a character that is no
    whitespace. *)
Lemma strip_head (s : pystr) :
  match strip s with c :: _ => isspace c = false | [] => True end.
Proof.
  unfold strip. pose proof (lstrip_head s) as H.
  destruct (lstrip s) as [| c L]; [ exact I | ].
  cbn [rev]. rewrite (lstrip_app_stop _ _ _ H).
  rewrite rev_app_distr. cbn [rev app]. exact H.
Qed.

Lemma strip_idempotent (s : pystr) : strip (strip s) = strip s.
Proof.
  pose proof (strip_head s) as Hh.
  unfold strip at 1. rewrite (lstrip_fixed _ Hh).
  assert (rev (strip s) = lstrip (rev (lstrip s))) as E
    by (unfold strip; apply rev_involutive).
  rewrite E. rewrite (lstrip_fixed _ (lstrip_head _)).
  rewrite <- E. apply rev_involutive.
Qed.

Lemma split_nonempty (sep : N) (s : pystr) : split sep s <> [].
Proof.
  destruct s as [| c r]; cbn [split]; [ discriminate | ].
  destruct (c =? sep)%N; [ discriminate | ].
  destruct (split sep r); discriminate.
Qed.

Lemma split_pieces (sep : N) (s p : pystr) (c : N) :
  In p (split sep s) -> In c p -> In c s /\ c <> sep.
Proof.
  revert p. induction s as [| a r IH]; intros p Hp Hc.
  - cbn in Hp. destruct Hp as [<- | []]. destruct Hc.
  - cbn [split] in Hp. destruct (a =? sep)%N eqn:E.
    + destruct Hp as [<- | Hp]; [ destruct Hc | ].
      destruct (IH p Hp Hc) as [H1 H2]. split; [ right; exact H1 | exact H2 ].
    + destruct (split sep r) as [| h t] eqn:Es.
      * destruct Hp as [<- | []]. destruct Hc as [<- | []].
        split; [ left; reflexivity | ]. apply N.eqb_neq, E.
      * destruct Hp as [<- | Hp].
        -- destruct Hc as [<- | Hc].
           ++ split; [ left; reflexivity | ]. apply N.eqb_neq, E.
           ++ destruct (IH h (or_introl eq_refl) Hc) as [H1 H2].
              split; [ right; exact H1 | exact H2 ].
        -- destruct (IH p (or_intror Hp) Hc) as [H1 H2].
           split; [ right; exact H1 | exact H2 ].
Qed.

Lemma split_app (sep : N) (a b : pystr) :
  split sep (a ++ sep :: b) = split sep a ++ split sep b.
Proof.
  induction a as [| c a IH].
  - cbn [app split]. rewrite N.eqb_refl. reflexivity.
  - cbn [app split]. destruct (c =? sep)%N.
    + rewrite IH. reflexivity.
    + rewrite IH. pose proof (split_nonempty sep a) as Hn.
      destruct (split sep a) as [| h t]; [ contradiction | reflexivity ].
Qed.

End MoreStrings.

Section MoreMeals.
Import Derived.
Variable lower : pystr -> pystr.

Lemma In_take (d : pystr) (n : nat) (l : list pystr) :
  In d (take n l) -> In d l.
Proof.
  revert l. induction n as [| n IH]; intros [| x l] H; try destruct H.
  - left. assumption.
  - right. apply IH. assumption.
Qed.

Lemma slot_length (n : nat) (l : list pystr) :
  (1 <= n)%nat ->
  (1 <= length (list_or (take n l) [placeholder]) <= n)%nat.
Proof.
  intros Hn. pose proof (firstn_le_length n l) as Hle.
  destruct (take n l) as [| x t]; cbn [list_or length] in *; lia.
Qed.

(** X9: for every input each of breakfast, lunch and dinner holds one or
    two entries, and the snack slot holds at most one. *)
Theorem X9_slot_sizes (cal p f c : Z) (prefs allergies goal : pystr) :
  let plan := meal_suggestions lower cal p f c prefs allergies goal in
  (1 <= length (breakfast plan) <= 2)%nat
  /\ (1 <= length (lunch plan) <= 2)%nat
  /\ (1 <= length (dinner plan) <= 2)%nat
  /\ (length (snack plan) <= 1)%nat.
Proof.
  unfold meal_suggestions. cbn [breakfast lunch dinner snack].
  repeat split; try (apply slot_length; lia); try apply firstn_le_length.
Qed.

Lemma ok_spec (avoid : list pystr) (item : pystr) :
  Meals.ok lower avoid item = true
  <-> forall a, In a avoid -> contains (lower item) (lower a) = false.
Proof.
  unfold Meals.ok. rewrite forallb_forall.
  split; intros H a Ha; specialize (H a Ha).
  - apply negb_true_iff, H.
  - apply negb_true_iff, H.
Qed.

Lemma slot_sound (n : nat) (avoid : list pystr) (cands : list pystr)
    (d : pystr) :
  In d (take n (List.filter (Meals.ok lower avoid) cands)) ->
  In d cands
  /\ forall a, In a avoid -> contains (lower d) (lower a) = false.
Proof.
  intros H. apply In_take, filter_In in H. destruct H as [Hin Hok].
  split; [ exact Hin | ]. apply ok_spec, Hok.
Qed.

(** X10: every entry of a slot is either the placeholder or a dish of that
    slot's catalogue in which no allergy token occurs (both lower-cased);
    the snack slot never holds the placeholder. *)
Theorem X10_slots_avoid_allergens
    (cal p f c : Z) (prefs allergies goal : pystr) (d : pystr) :
  let plan := meal_suggestions lower cal p f c prefs allergies goal in
  let clean (cands : list pystr) :=
    In d cands
    /\ forall a, In a (avoid_of allergies) ->
                 contains (lower d) (lower a) = false in
  (In d (breakfast plan) -> d = placeholder \/ clean breakfast_candidates)
  /\ (In d (lunch plan) -> d = placeholder \/ clean lunch_candidates)
  /\ (In d (dinner plan) -> d = placeholder \/ clean dinner_candidates)
  /\ (In d (snack plan) -> clean snack_candidates).
Proof.
  unfold meal_suggestions. cbn [breakfast lunch dinner snack]. cbv zeta.
  assert (forall n cands,
             In d (list_or (take n (List.filter
                                      (Meals.ok lower (avoid_of allergies))
                                      cands)) [placeholder]) ->
             d = placeholder
             \/ (In d cands
                 /\ forall a, In a (avoid_of allergies) ->
                              contains (lower d) (lower a) = false)) as Hslot.
  { intros n cands H.
    destruct (take n _) as [| x t] eqn:E; cbn [list_or] in H.
    - left. destruct H as [<- | []]. reflexivity.
    - right. apply (slot_sound n). rewrite E. exact H. }
  split; [ apply Hslot | ]. split; [ apply Hslot | ].
  split; [ apply Hslot | ]. apply (slot_sound 1).
Qed.

Lemma filter_all (P : pystr -> bool) (l : list pystr) :
  (forall x, In x l -> P x = true) -> List.filter P l = l.
Proof.
  induction l as [| x l IH]; [ reflexivity | ].
  intros H. cbn [List.filter]. rewrite (H x) by (left; reflexivity).
  f_equal. apply IH. intros y Hy. apply H. right. exact Hy.
Qed.

Lemma filter_none (P : pystr -> bool) (l : list pystr) :
  (forall x, In x l -> P x = false) -> List.filter P l = [].
Proof.
  induction l as [| x l IH]; [ reflexivity | ].
  intros H. cbn [List.filter]. rewrite (H x) by (left; reflexivity).
  apply IH. intros y Hy. apply H. right. exact Hy.
Qed.

Lemma avoid_of_blank (allergies : pystr) :
  (forall ch, In ch allergies -> isspace ch = true \/ ch = comma) ->
  avoid_of allergies = [].
Proof.
  intros H. unfold avoid_of. rewrite filter_none; [ reflexivity | ].
  intros piece Hp. rewrite strip_blank; [ reflexivity | ].
  intros ch Hch. destruct (split_pieces comma allergies piece ch Hp Hch)
    as [Hin Hne].
  destruct (H ch Hin) as [Hs | Hc]; [ exact Hs | contradiction ].
Qed.

(** X11: an allergy text made of nothing but whitespace and commas (the
    empty text included) names no allergen: the plan then holds the first
    two dishes of each catalogue and the snack. *)
Theorem X11_blank_allergies_filter_nothing
    (cal p f c : Z) (prefs allergies goal : pystr) :
  (forall ch, In ch allergies -> isspace ch = true \/ ch = comma) ->
  let plan := meal_suggestions lower cal p f c prefs allergies goal in
  avoid_of allergies = []
  /\ breakfast plan = take 2 breakfast_candidates
  /\ lunch plan = take 2 lunch_candidates
  /\ dinner plan = take 2 dinner_candidates
  /\ snack plan = snack_candidates.
Proof.
  intros H. pose proof (avoid_of_blank allergies H) as E.
  unfold meal_suggestions. cbn [breakfast lunch dinner snack].
  rewrite E.
  rewrite !(filter_all (Meals.ok lower [])) by (intros; reflexivity).
  repeat split; reflexivity.
Qed.

(** X12: every allergy token the filter works with is non-empty, holds no
    comma, and has no whitespace at either end (stripping it again changes
    nothing). *)
Theorem X12_allergy_tokens_wellformed (allergies a : pystr) :
  In a (avoid_of allergies) ->
  a <> [] /\ ~ In comma a /\ strip a = a.
Proof.
  unfold avoid_of. intros H. apply in_map_iff in H.
  destruct H as (piece & <- & Hp). apply filter_In in Hp.
  destruct Hp as [Hin Hne].
  split; [ | split ].
  - intros E. rewrite E in Hne. discriminate Hne.
  - intros Hc. apply strip_In in Hc.
    destruct (split_pieces comma allergies piece comma Hin Hc) as [_ Hn].
    apply Hn. reflexivity.
  - apply strip_idempotent.
Qed.

Lemma X12_allergy_tokens_wellformed_witness :
  In (u "卵") (avoid_of (u "乳, 卵 ,")) /\ strip (u "卵") = u "卵".
Proof.
  assert (In (u "卵") (avoid_of (u "乳, 卵 ,"))) as Hin
    by (vm_compute; right; left; reflexivity).
  split; [ exact Hin | ].
  apply (X12_allergy_tokens_wellformed (u "乳, 卵 ,") (u "卵") Hin).
Defined.

Lemma avoid_of_app (a b : pystr) :
  avoid_of (a ++ comma :: b) = avoid_of a ++ avoid_of b.
Proof.
  unfold avoid_of.
  rewrite split_app, List.filter_app, List.map_app. reflexivity.
Qed.

(** X13: allergy texts add up: for two texts joined by a comma the tokens
    are those of the first followed by those of the second, and a dish
    passes the filter exactly when it passes it for each text alone. *)
Theorem X13_allergies_combine (a b item : pystr) :
  avoid_of (a ++ comma :: b) = avoid_of a ++ avoid_of b
  /\ Meals.ok lower (avoid_of (a ++ comma :: b)) item
     = Meals.ok lower (avoid_of a) item && Meals.ok lower (avoid_of b) item.
Proof.
  split; [ apply avoid_of_app | ].
  rewrite avoid_of_app. unfold Meals.ok. apply List.forallb_app.
Qed.

Lemma guide_shape (cal p f c : Z) (prefs allergies goal : pystr) :
  exists tail : pystr,
    guide (meal_suggestions lower cal p f c prefs allergies goal)
    = (u "- 1日の目標：" ++ str_of_int cal ++ u " kcal / P"
         ++ str_of_int p ++ u "g F" ++ str_of_int f ++ u "g C"
         ++ str_of_int c ++ u "g" ++ nl)
      ++ tail.
Proof.
  unfold meal_suggestions. cbn [guide].
  set (note := if startswith goal (u "減量") then cut_note else keep_note).
  set (X := match avoid_of allergies with
            | [] => u "なし"
            | _ => join (u ", ") (avoid_of allergies)
            end).
  assert (u "- 1日の目標：" = 45%N :: u " 1日の目標：") as E1
    by (vm_compute; reflexivity).
  assert (u " / アレルギー回避：" = u " / アレルギー回避" ++ [65306%N]) as E2
    by (vm_compute; reflexivity).
  rewrite E1, E2. unfold nl.
  set (A := u " 1日の目標：" ++ str_of_int cal ++ u " kcal / P"
            ++ str_of_int p ++ u "g F" ++ str_of_int f ++ u "g C"
            ++ str_of_int c ++ u "g" ++ [10%N]).
  set (B := u "- 配分例：朝 25% / 昼 35% / 夜 30% / 間食 10%" ++ [10%N]
            ++ u "- 水分：目安 体重(kg)×30〜35 ml" ++ [10%N] ++ u "- "
            ++ note ++ u " " ++ [10%N] ++ u "- 好み："
            ++ str_or prefs (u "（未入力）") ++ u " / アレルギー回避").
  match goal with
  | |- exists tail, strip ?S = _ =>
      assert (S = 10%N :: 45%N :: (A ++ B) ++ 65306%N :: (X ++ [10%N])) as ->
  end.
  { subst A B. repeat first [ rewrite <- app_assoc | progress cbn [app] ].
    reflexivity. }
  rewrite strip_inner by reflexivity.
  exists (B ++ 65306%N :: rev (lstrip (rev (X ++ [10%N])))).
  subst A. repeat first [ rewrite <- app_assoc | progress cbn [app] ].
  reflexivity.
Qed.

(** X14: for every input the guide begins with the target line carrying
    exactly the four numbers passed in, and it has no whitespace at either
    end. *)
Theorem X14_guide_first_line (cal p f c : Z) (prefs allergies goal : pystr) :
  let g := guide (meal_suggestions lower cal p f c prefs allergies goal) in
  startswith g
    (u "- 1日の目標：" ++ str_of_int cal ++ u " kcal / P"
       ++ str_of_int p ++ u "g F" ++ str_of_int f ++ u "g C"
       ++ str_of_int c ++ u "g" ++ nl) = true
  /\ strip g = g.
Proof.
  cbv zeta. split.
  - destruct (guide_shape cal p f c prefs allergies goal) as [tail ->].
    apply startswith_app.
  - unfold meal_suggestions. cbn [guide]. apply strip_idempotent.
Qed.

(** X15: the results tab composes the two: for every input the form
    accepts, the assessment exists and the guide of the plan built from it
    begins with the target line showing the assessment's calorie target and
    macros. *)
Theorem X15_plan_shows_assessment
    (age : Z) (gender : pystr) (height_cm weight_kg : Q)
    (activity_level goal prefs allergies : pystr) :
  (10 <= age <= 100)%Z ->
  (120 <= height_cm <= 220)%Q ->
  (30 <= weight_kg <= 200)%Q ->
  exists a : Assessment,
    assess age gender height_cm weight_kg activity_level goal = Ok a
    /\ startswith
         (guide (plan_of_assessment lower a prefs allergies goal))
         (u "- 1日の目標：" ++ str_of_int (target_calories a)
            ++ u " kcal / P" ++ str_of_int (protein_g a)
            ++ u "g F" ++ str_of_int (fat_g a)
            ++ u "g C" ++ str_of_int (carbs_g a) ++ u "g" ++ nl) = true.
Proof.
  intros Ha Hh Hw.
  destruct (assess_form_residue age gender height_cm weight_kg
              activity_level goal Ha Hh Hw) as (a & Hok & _).
  exists a. split; [ exact Hok | ].
  unfold plan_of_assessment.
  destruct (guide_shape (target_calories a) (protein_g a) (fat_g a)
              (carbs_g a) prefs allergies goal) as [tail ->].
  apply startswith_app.
Qed.

End MoreMeals.

Lemma X10_slots_avoid_allergens_witness :
  In (u "プロテインシェイク+バナナ")
     (breakfast (meal_suggestions lower_ascii 2000 126 56 249 []
                   (u "卵, ヨーグルト") goal_keep))
  /\ contains (lower_ascii (u "プロテインシェイク+バナナ"))
       (lower_ascii (u "卵")) = false.
Proof.
  assert (In (u "プロテインシェイク+バナナ")
             (breakfast (meal_suggestions lower_ascii 2000 126 56 249 []
                           (u "卵, ヨーグルト") goal_keep))) as Hin
    by (vm_compute; left; reflexivity).
  split; [ exact Hin | ].
  destruct (X10_slots_avoid_allergens lower_ascii 2000 126 56 249 []
              (u "卵, ヨーグルト") goal_keep (u "プロテインシェイク+バナナ"))
    as (Hb & _).
  destruct (Hb Hin) as [E | [_ Hclean]].
  - vm_compute in E. discriminate E.
  - apply Hclean. vm_compute. left. reflexivity.
Defined.

Lemma X11_blank_allergies_filter_nothing_witness :
  breakfast (meal_suggestions lower_ascii 2000 126 56 249 [] (u " , ,") goal_keep)
  = take 2 breakfast_candidates.
Proof.
  assert (forall ch, In ch (u " , ,") -> isspace ch = true \/ ch = comma)
    as Hblank.
  { intros ch Hch. vm_compute in Hch.
    repeat destruct Hch as [<- | Hch]; try contradiction;
      first [ left; reflexivity | right; reflexivity ]. }
  pose proof (X11_blank_allergies_filter_nothing lower_ascii 2000 126 56 249 []
                (u " , ,") goal_keep Hblank) as Hx.
  cbv zeta in Hx. destruct Hx as (_ & Hb & _). exact Hb.
Defined.

Lemma X15_plan_shows_assessment_witness :
  exists a : Assessment,
    assess 35 male 170 65 level_low goal_keep = Ok a
    /\ startswith
         (guide (Derived.plan_of_assessment lower_ascii a [] [] goal_keep))
         (u "- 1日の目標：" ++ str_of_int (target_calories a)
            ++ u " kcal / P" ++ str_of_int (protein_g a)
            ++ u "g F" ++ str_of_int (fat_g a)
            ++ u "g C" ++ str_of_int (carbs_g a) ++ u "g" ++ nl) = true.
Proof.
  apply (X15_plan_shows_assessment lower_ascii 35 male 170 65 level_low goal_keep [] []).
  - lia.
  - split; discriminate.
  - split; discriminate.
Defined.

(** ** Posture analyzer *)

Section MorePosture.
Import Posture Stance Derived.
Local Open Scope R_scope.

(** The report for a detected pose, in full. *)
Lemma analyze_posture_report (lm : landmarks) :
  analyze_posture true (Some lm)
  = Ok (mkReport true (u "解析完了")
          (symmetry_findings lm ++ knee_findings lm)
          (Some (List.map advice_for
                   (symmetry_findings lm ++ knee_findings lm)))).
Proof.
  unfold analyze_posture, symmetry_findings, knee_findings, knee_w, ankle_w.
  cbn [negb].
  set (sd := line_angle_deg (lm RIGHT_SHOULDER) (lm LEFT_SHOULDER)).
  set (hd := line_angle_deg (lm RIGHT_HIP) (lm LEFT_HIP)).
  set (ed := line_angle_deg (lm RIGHT_EAR) (lm LEFT_EAR)).
  set (kw := dist (lm LEFT_KNEE) (lm RIGHT_KNEE)).
  set (aw := dist (lm LEFT_ANKLE) (lm RIGHT_ANKLE)).
  destruct (Rge_dec (Rabs sd) 5), (Rge_dec (Rabs hd) 5),
    (Rge_dec (Rabs ed) 5), (Rgt_dec aw 0) as [Haw | Haw];
    rewrite ?(div_nonzero kw aw Haw);
    cbn [mbind result_bind mret result_ret app];
    try destruct (Rlt_dec (kw / aw) (9 / 10));
    rewrite ?(div_nonzero kw aw Haw);
    reflexivity.
Qed.

(** X16: given the outcome of the pose detection, a report is marked ok
    exactly when the pose library is available and a pose was detected;
    a report that is not ok carries no finding and no advice, and without
    the library the detection outcome is not looked at. *)
Theorem X16_not_analyzed_reports
    (POSE_AVAILABLE : bool) (pose_landmarks : option landmarks)
    (rep : report) :
  analyze_posture POSE_AVAILABLE pose_landmarks = Ok rep ->
  (Posture.ok rep = true
   <-> POSE_AVAILABLE = true /\ pose_landmarks <> None)
  /\ (Posture.ok rep = false -> findings rep = [] /\ advice rep = None)
  /\ (POSE_AVAILABLE = false ->
      analyze_posture false None = Ok rep).
Proof.
  destruct POSE_AVAILABLE, pose_landmarks as [lm |].
  - rewrite analyze_posture_report. intros [= <-]. cbn [Posture.ok].
    split; [ | split; discriminate ].
    split; [ intros _; split; [ reflexivity | discriminate ]
           | reflexivity ].
  - intros [= <-]. cbn [Posture.ok findings advice].
    split; [ | split; [ intros _; split; reflexivity | discriminate ] ].
    split; [ discriminate | intros [_ H]; contradiction ].
  - intros [= <-]. cbn [Posture.ok findings advice].
    split; [ | split; [ intros _; split; reflexivity | reflexivity ] ].
    split; [ discriminate | intros [H _]; discriminate H ].
  - intros [= <-]. cbn [Posture.ok findings advice].
    split; [ | split; [ intros _; split; reflexivity | reflexivity ] ].
    split; [ discriminate | intros [H _]; discriminate H ].
Qed.

Lemma X16_not_analyzed_reports_witness :
  exists rep : report,
    analyze_posture true None = Ok rep
    /\ findings rep = [] /\ advice rep = None.
Proof.
  eexists. split; [ reflexivity | ].
  eapply (X16_not_analyzed_reports true None).
  - reflexivity.
  - reflexivity.
Defined.

(** X17: the findings of a report come in the fixed order shoulder, hip,
    head, knee with at most one of each, and the advice lines are those of
    the findings, one per finding in the same order. *)
Theorem X17_report_structure (lm : landmarks) :
  exists rep : report,
    analyze_posture true (Some lm) = Ok rep
    /\ sublist (findings rep)
         [ Shoulder_tilt
             (line_angle_deg (lm RIGHT_SHOULDER) (lm LEFT_SHOULDER));
           Hip_tilt (line_angle_deg (lm RIGHT_HIP) (lm LEFT_HIP));
           Head_tilt (line_angle_deg (lm RIGHT_EAR) (lm LEFT_EAR));
           Knee_in (knee_w lm / ankle_w lm) ]
    /\ advice rep = Some (List.map advice_for (findings rep)).
Proof.
  rewrite analyze_posture_report. eexists. split; [ reflexivity | ].
  cbn [findings advice]. split; [ | reflexivity ].
  unfold symmetry_findings, knee_findings. cbv zeta.
  destruct (Rge_dec _ 5), (Rge_dec _ 5), (Rge_dec _ 5),
    (Rgt_dec (ankle_w lm) 0);
    try destruct (Rlt_dec (knee_w lm / ankle_w lm) (9 / 10));
    cbn [app];
    repeat first [ apply sublist_nil | apply sublist_skip
                 | apply sublist_cons ].
Qed.



(** *** The 5 degree threshold as a height difference *)







(** *** The tilt checks in coordinates, whatever the orientation *)






(** X22: photographed from behind (each left point to the left of its right
    point) a stance with level shoulders, hips and ears gets all three tilt
    findings, each with 180 degrees, ahead of any knee finding. *)
Theorem X22_back_view_reports_180 (lm : landmarks) :
  snd (lm LEFT_SHOULDER) = snd (lm RIGHT_SHOULDER) ->
  snd (lm LEFT_HIP) = snd (lm RIGHT_HIP) ->
  snd (lm LEFT_EAR) = snd (lm RIGHT_EAR) ->
  fst (lm LEFT_SHOULDER) < fst (lm RIGHT_SHOULDER) ->
  fst (lm LEFT_HIP) < fst (lm RIGHT_HIP) ->
  fst (lm LEFT_EAR) < fst (lm RIGHT_EAR) ->
  exists rep : report,
    analyze_posture true (Some lm) = Ok rep
    /\ findings rep
       = [ Shoulder_tilt 180; Hip_tilt 180; Head_tilt 180 ]
         ++ knee_findings lm.
Proof.
  intros Ys Yh Ye Xs Xh Xe.
  rewrite analyze_posture_report. eexists. split; [ reflexivity | ].
  cbn [findings]. f_equal. unfold symmetry_findings. cbv zeta.
  rewrite !line_angle_level_reversed by (assumption || (symmetry; assumption)).
  destruct (Rge_dec (Rabs 180) 5) as [_ | Hn]; [ reflexivity | ].
  exfalso. apply Hn. rewrite Rabs_right; lra.
Qed.

Lemma X22_back_view_reports_180_witness :
  exists rep : report,
    analyze_posture true
      (Some (fun l => (1 - fst (upright l), snd (upright l)))) = Ok rep
    /\ findings rep
       = [ Shoulder_tilt 180; Hip_tilt 180; Head_tilt 180 ]
         ++ knee_findings (fun l => (1 - fst (upright l), snd (upright l))).
Proof.
  apply (X22_back_view_reports_180
           (fun l => (1 - fst (upright l), snd (upright l))));
    cbn; lra.
Defined.

(** X25: a degenerate detection in which the two points of every pair
    coincide yields a report without findings: every line measures 0
    degrees and the knee check is skipped because the ankle distance is 0. *)
Theorem X25_coinciding_pairs_no_findings (lm : landmarks) :
  (forall l r, In (l, r) sides -> lm l = lm r) ->
  analyze_posture true (Some lm)
  = Ok (mkReport true (u "解析完了") [] (Some [])).
Proof.
  intros H. rewrite analyze_posture_report.
  assert (symmetry_findings lm = []) as ->.
  { unfold symmetry_findings. cbv zeta.
    rewrite (H LEFT_SHOULDER RIGHT_SHOULDER), (H LEFT_HIP RIGHT_HIP),
      (H LEFT_EAR RIGHT_EAR) by (cbn; tauto).
    rewrite !line_angle_level_facing by lra.
    rewrite Rabs_R0. destruct (Rge_dec 0 5); [ lra | reflexivity ]. }
  assert (knee_findings lm = []) as ->.
  { unfold knee_findings, ankle_w.
    rewrite (H LEFT_ANKLE RIGHT_ANKLE) by (cbn; tauto).
    rewrite dist_level by reflexivity.
    replace (fst (lm RIGHT_ANKLE) - fst (lm RIGHT_ANKLE)) with 0 by lra.
    rewrite Rabs_R0. destruct (Rgt_dec 0 0); [ lra | reflexivity ]. }
  reflexivity.
Qed.

Lemma X25_coinciding_pairs_no_findings_witness :
  analyze_posture true (Some (fun _ => (1 / 2, 1 / 2)))
  = Ok (mkReport true (u "解析完了") [] (Some [])).
Proof.
  apply (X25_coinciding_pairs_no_findings (fun _ => (1 / 2, 1 / 2))).
  intros l r _. reflexivity.
Defined.

End MorePosture.

(** ** The report document *)

Section ReportSections.
Import Posture Stance Derived.
Variable lower : pystr -> pystr.

Lemma join_nonempty (sep : pystr) (l : list pystr) :
  l <> [] -> (forall x, In x l -> x <> []) -> join sep l <> [].
Proof.
  destruct l as [| x l]; [ contradiction | ].
  intros _ H. pose proof (H x (or_introl eq_refl)) as Hx.
  destruct x as [| ch x]; [ contradiction | ].
  cbn [join]. destruct l; discriminate.
Qed.

Lemma dishes_nonempty (d : pystr) :
  In d (placeholder :: breakfast_candidates ++ lunch_candidates
          ++ dinner_candidates ++ snack_candidates) ->
  d <> [].
Proof.
  intros H E. subst d. vm_compute in H.
  repeat (destruct H as [H | H]; [ discriminate H | ]). exact H.
Qed.

Lemma slot_line_nonempty (avoid : list pystr) (cands : list pystr) :
  (forall d, In d cands -> d <> []) ->
  join (u ", ")
    (list_or (take 2 (List.filter (Meals.ok lower avoid) cands))
       [placeholder]) <> [].
Proof.
  intros Hc. apply join_nonempty.
  - apply list_or_placeholder.
  - intros d Hd.
    destruct (take 2 _) as [| x t] eqn:E; cbn [list_or] in Hd.
    + destruct Hd as [<- | []].
      apply dishes_nonempty. left. reflexivity.
    + apply Hc. rewrite <- E in Hd.
      apply In_take, List.filter_In in Hd. apply Hd.
Qed.

(** X23: in the meal section of the report the breakfast, lunch and dinner
    paragraphs always name at least one entry after their label, while the
    snack paragraph is the bare label exactly when the snack candidate was
    filtered out. *)
Theorem X23_report_meal_lines (cal p f c : Z) (prefs allergies goal : pystr) :
  let plan := meal_suggestions lower cal p f c prefs allergies goal in
  exists b l d s : pystr,
    report_meals plan
    = [ Heading 2 (u "1日の食事例"); Paragraph (guide plan);
        Paragraph (u "朝：" ++ b); Paragraph (u "昼：" ++ l);
        Paragraph (u "夜：" ++ d); Paragraph (u "間食：" ++ s) ]
    /\ b <> [] /\ l <> [] /\ d <> []
    /\ (s = []
        <-> List.filter (Meals.ok lower (avoid_of allergies))
              snack_candidates = []).
Proof.
  cbv zeta. unfold report_meals.
  do 4 eexists. split; [ reflexivity | ].
  unfold meal_suggestions. cbn [breakfast lunch dinner snack].
  split.
  { apply slot_line_nonempty. intros d Hd. apply dishes_nonempty.
    right. apply in_or_app. left. exact Hd. }
  split.
  { apply slot_line_nonempty. intros d Hd. apply dishes_nonempty.
    right. apply in_or_app. right. apply in_or_app. left. exact Hd. }
  split.
  { apply slot_line_nonempty. intros d Hd. apply dishes_nonempty.
    right. apply in_or_app. right. apply in_or_app. right.
    apply in_or_app. left. exact Hd. }
  destruct (List.filter _ snack_candidates) as [| x t] eqn:E.
  - split; reflexivity.
  - cbn [take firstn join]. split; [ | discriminate ].
    intros Ex. exfalso.
    assert (In x snack_candidates) as Hin.
    { assert (In x (x :: t)) as Hx by (left; reflexivity).
      rewrite <- E in Hx. apply List.filter_In in Hx. apply Hx. }
    apply (dishes_nonempty x); [ | exact Ex ].
    right. apply in_or_app. right. apply in_or_app. right.
    apply in_or_app. right. exact Hin.
Qed.

(** X24: the posture section of the report follows the analysis: when the
    analysis did not run it holds the report's message alone; when it ran
    and found nothing it holds the line that no major deviation was
    detected; otherwise it lists every finding under the attention header,
    then one advice line per finding under the advice header. *)
Theorem X24_report_posture_section
    (POSE_AVAILABLE : bool) (pose_landmarks : option landmarks)
    (rep : report) :
  analyze_posture POSE_AVAILABLE pose_landmarks = Ok rep ->
  report_posture rep
  = Heading 2 (u "姿勢チェック")
    :: (if Posture.ok rep then
          match findings rep with
          | [] => [ Paragraph (u "大きな偏りは検出されませんでした。") ]
          | fs =>
              Paragraph (u "注意ポイント：") :: List.map Finding_line fs
              ++ Paragraph (u "改善アドバイス：")
                 :: List.map (fun f => Advice_line (advice_for f)) fs
          end
        else [ Paragraph (message rep) ]).
Proof.
  destruct POSE_AVAILABLE, pose_landmarks as [lm |];
    try (intros [= <-]; reflexivity).
  rewrite analyze_posture_report. intros [= <-].
  unfold report_posture. cbn [Posture.ok findings advice].
  destruct (symmetry_findings lm ++ knee_findings lm) as [| x fs].
  - reflexivity.
  - cbn [List.map app]. rewrite List.map_map. reflexivity.
Qed.

Lemma X24_report_posture_section_witness :
  report_posture
    (mkReport true (u "解析完了")
       (symmetry_findings upright ++ knee_findings upright)
       (Some (List.map advice_for
                (symmetry_findings upright ++ knee_findings upright))))
  = Heading 2 (u "姿勢チェック")
    :: (match symmetry_findings upright ++ knee_findings upright with
        | [] => [ Paragraph (u "大きな偏りは検出されませんでした。") ]
        | fs =>
            Paragraph (u "注意ポイント：") :: List.map Finding_line fs
            ++ Paragraph (u "改善アドバイス：")
               :: List.map (fun f => Advice_line (advice_for f)) fs
        end).
Proof.
  exact (X24_report_posture_section true (Some upright) _
           (analyze_posture_report upright)).
Defined.

End ReportSections.
